(** * AC_RL telemetry app and its companion receiver

    A shallow embedding of [AC_RL.py] (the in-game publisher: command
    processing, endpoint lifecycle, per-tick sampling and delivery) and of
    [telemetry.py] (the aggregating receiver), followed by the properties of
    the transport layer.

    Conventions of the embedding.
    - Python values that travel through JSON are the inductive [pyval].
    - The module globals of [AC_RL.py] are the record [Config]; the part of
      the operating system the program touches (socket descriptors, files)
      and the chronological list of the external calls it makes are the
      record [OS].  A [World] is both.
    - Every external call whose result the program cannot control (creating
      a socket, sending a datagram, writing a file, calling into the host)
      takes its result from an explicit outcome argument, one per call site,
      so every theorem quantifies over all behaviours of the environment.
    - A Python function that cannot raise is a function [World -> World];
      the tick handler, which can, returns a [completion] as well. *)

From Stdlib Require Import ZArith NArith Ascii String List Bool Lia.
From Stdlib.Strings Require Byte.
From stdpp Require Import base option list gmap strings.

Import ListNotations.
Local Open Scope Z_scope.

(** ** Python values *)

(** A Python float is an IEEE double: not-a-number, an infinity, or the
    dyadic rational [m * 2^e].  Only [int()] and truthiness look inside. *)
Inductive pyfloat :=
| FNan
| FInf (negative : bool)
| FFin (m e : Z).

#[warnings="-register-all"]
Inductive pyval :=
| PNone
| PBool (b : bool)
| PInt (z : Z)
| PFloat (f : pyfloat)
| PStr (s : string)
| PList (l : list pyval)
| PDict (d : list (string * pyval)).

(** A [dict] with string keys, in insertion order (what [json.load]
    produces and [json.dump] writes back). *)
Abbreviation pydict := (list (string * pyval)).

Module Py.

(** [key in d] *)
Fixpoint dict_has (k : string) (d : pydict) : bool :=
  match d with
  | [] => false
  | (k', _) :: r => if String.eqb k k' then true else dict_has k r
  end.

(** [d.get(key)], with [None] for Python's [None] default left to the
    caller. *)
Fixpoint dict_get (k : string) (d : pydict) : option pyval :=
  match d with
  | [] => None
  | (k', v) :: r => if String.eqb k k' then Some v else dict_get k r
  end.

(** [d.get(key, dflt)] *)
Definition dict_get_default (k : string) (dflt : pyval) (d : pydict) : pyval :=
  match dict_get k d with Some v => v | None => dflt end.

(** [d[key] = v]: an existing key keeps its position, a new one goes
    last. *)
Fixpoint dict_set (k : string) (v : pyval) (d : pydict) : pydict :=
  match d with
  | [] => [(k, v)]
  | (k', v') :: r =>
      if String.eqb k k' then (k', v) :: r else (k', v') :: dict_set k v r
  end.

(** [bool(v)] *)
Definition truthy (v : pyval) : bool :=
  match v with
  | PNone => false
  | PBool b => b
  | PInt z => negb (z =? 0)
  | PFloat (FFin m _) => negb (m =? 0)
  | PFloat _ => true
  | PStr s => negb (String.eqb s "")
  | PList l => match l with [] => false | _ => true end
  | PDict d => match d with [] => false | _ => true end
  end.

(** [bool(d.get(key))] *)
Definition get_bool (k : string) (d : pydict) : bool :=
  match dict_get k d with Some v => truthy v | None => false end.

(** [d.get(key) is True] *)
Definition get_is_True (k : string) (d : pydict) : bool :=
  match dict_get k d with Some (PBool true) => true | _ => false end.

(** *** [int(v)]

    [None] stands for the [TypeError], [ValueError] or [OverflowError]
    that [int()] raises.  Strings are read as Python reads ASCII text:
    surrounding white space, an optional sign, decimal digits with single
    underscores between them. *)

(** The ASCII characters Python counts as white space: tab to carriage
    return, the four separators FS, GS, RS and US, and the blank. *)
Definition is_space (c : ascii) : bool :=
  let n := nat_of_ascii c in
  (Nat.eqb n 32 || (Nat.leb 9 n && Nat.leb n 13)
   || (Nat.leb 28 n && Nat.leb n 31))%bool.

Definition digit_of (c : ascii) : option Z :=
  let n := nat_of_ascii c in
  if (Nat.leb 48 n && Nat.leb n 57)%bool then Some (Z.of_nat n - 48) else None.

Fixpoint all_space (s : string) : bool :=
  match s with
  | EmptyString => true
  | String c r => (is_space c && all_space r)%bool
  end.

Fixpoint lstrip (s : string) : string :=
  match s with
  | String c r => if is_space c then lstrip r else s
  | EmptyString => s
  end.

(** Digits after the sign; [after_digit] tells whether the previous
    character was a digit (an underscore or the end is only legal
    then). *)
Fixpoint int_digits (acc : Z) (after_digit : bool) (s : string) : option Z :=
  match s with
  | EmptyString => if after_digit then Some acc else None
  | String c r =>
      match digit_of c with
      | Some d => int_digits (10 * acc + d) true r
      | None =>
          if after_digit then
            if Ascii.eqb c "_"%char then int_digits acc false r
            else if all_space s then Some acc else None
          else None
      end
  end.

Definition int_of_str (s : string) : option Z :=
  match lstrip s with
  | String "-"%char r => option_map Z.opp (int_digits 0 false r)
  | String "+"%char r => int_digits 0 false r
  | r => int_digits 0 false r
  end.

(** Truncation towards zero of [m * 2^e]. *)
Definition int_of_float (f : pyfloat) : option Z :=
  match f with
  | FNan | FInf _ => None
  | FFin m e => Some (if 0 <=? e then m * 2 ^ e else Z.quot m (2 ^ (- e)))
  end.

Definition int (v : pyval) : option Z :=
  match v with
  | PInt z => Some z
  | PBool b => Some (if b then 1 else 0)
  | PFloat f => int_of_float f
  | PStr s => int_of_str s
  | PNone | PList _ | PDict _ => None
  end.

End Py.

(** ** The world the program runs in *)

(** Socket descriptors. *)
Abbreviation fd := nat (only parsing).

(** What the operating system knows of a live UDP socket. *)
Record sockinfo := mkSock {
  sk_bound : option (pyval * Z);   (* address given to a successful [bind] *)
  sk_blocking : bool
}.

(** A file holds a JSON document or text that [json.load] rejects (a
    truncated write, a hand-edited file). *)
Inductive fcontent :=
| Json (doc : pyval)
| Garbage.

(** Result of [with open(p, "w") as f: json.dump(doc, f)]. *)
Inductive write_outcome :=
| WriteOk
| OpenRaises      (* the file could not be opened; nothing is written *)
| DumpRaises.     (* the write broke off; the file is left truncated *)

(** The external calls of the program, in the order they are made.  Log
    messages are recorded by their format string, without the formatted
    arguments. *)
Inductive event :=
| EvLog (msg : string)
    (* file_log(msg) *)
| EvAcLog (msg : string) (ok : bool)
    (* ac.log(msg) *)
| EvSocket (s : fd)
    (* s = socket.socket(AF_INET, SOCK_DGRAM) *)
| EvBind (s : fd) (host : pyval) (port : Z) (ok : bool)
    (* s.bind((host, port)) *)
| EvClose (s : fd)
    (* s.close() *)
| EvSendto (s : fd) (doc : pyval) (addr : pyval * Z) (ok : bool)
    (* s.sendto(json.dumps(doc).encode("utf-8"), addr) *)
| EvHostCmd (code : Z) (ok : bool)
    (* sendCMD(code) *)
| EvWrite (path : string) (doc : pyval) (res : write_outcome)
    (* with open(path, "w") as f: json.dump(doc, f) *)
| EvReplace (src dst : string) (ok : bool)
    (* os.replace(src, dst) *)
| EvRename (src dst : string) (ok : bool)
    (* os.rename(src, dst) *)
| EvSetText (label : nat).
    (* ac.setText(tyre_labels[label], text) *)

(** The module globals of [AC_RL.py]. *)
Record Config := mkConfig {
  TELEMETRY_UDP_HOST : pyval;
  TELEMETRY_UDP_PORT : Z;
  telemetry_sock : option fd;
  telemetry_addr : pyval * Z;
  INPUT_UDP_HOST : pyval;
  INPUT_UDP_PORT : Z;
  input_sock : option fd;
  input_addr : pyval * Z
}.

Record OS := mkOS {
  sockets : gmap nat sockinfo;     (* the live descriptors *)
  next_fd : fd;                    (* the descriptor the next [socket()] returns *)
  files : gmap string fcontent;
  trace : list event
}.

Record World := mkWorld { cfg : Config; os : OS }.

(** Lines 150-159: the values the globals have when the module is loaded,
    in a process that has opened no socket yet. *)
Definition initial_config : Config :=
  {| TELEMETRY_UDP_HOST := PStr "127.0.0.1"; TELEMETRY_UDP_PORT := 9876;
     telemetry_sock := None; telemetry_addr := (PStr "127.0.0.1", 9876);
     INPUT_UDP_HOST := PStr "127.0.0.1"; INPUT_UDP_PORT := 9877;
     input_sock := None; input_addr := (PStr "127.0.0.1", 9877) |}.

Definition initial_world (fs : gmap string fcontent) : World :=
  {| cfg := initial_config;
     os := {| sockets := ∅; next_fd := 0%nat; files := fs; trace := [] |} |}.

Section Updates.

Definition with_cfg (f : Config -> Config) (w : World) : World :=
  {| cfg := f (cfg w); os := os w |}.

Definition with_os (f : OS -> OS) (w : World) : World :=
  {| cfg := cfg w; os := f (os w) |}.

(** [TELEMETRY_UDP_HOST = host; TELEMETRY_UDP_PORT = port;
    telemetry_addr = (TELEMETRY_UDP_HOST, TELEMETRY_UDP_PORT)] *)
Definition set_telemetry_target (host : pyval) (port : Z) : World -> World :=
  with_cfg (fun c =>
    {| TELEMETRY_UDP_HOST := host; TELEMETRY_UDP_PORT := port;
       telemetry_sock := telemetry_sock c; telemetry_addr := (host, port);
       INPUT_UDP_HOST := INPUT_UDP_HOST c; INPUT_UDP_PORT := INPUT_UDP_PORT c;
       input_sock := input_sock c; input_addr := input_addr c |}).

Definition set_telemetry_sock (s : option fd) : World -> World :=
  with_cfg (fun c =>
    {| TELEMETRY_UDP_HOST := TELEMETRY_UDP_HOST c;
       TELEMETRY_UDP_PORT := TELEMETRY_UDP_PORT c;
       telemetry_sock := s; telemetry_addr := telemetry_addr c;
       INPUT_UDP_HOST := INPUT_UDP_HOST c; INPUT_UDP_PORT := INPUT_UDP_PORT c;
       input_sock := input_sock c; input_addr := input_addr c |}).

Definition set_telemetry_addr (a : pyval * Z) : World -> World :=
  with_cfg (fun c =>
    {| TELEMETRY_UDP_HOST := TELEMETRY_UDP_HOST c;
       TELEMETRY_UDP_PORT := TELEMETRY_UDP_PORT c;
       telemetry_sock := telemetry_sock c; telemetry_addr := a;
       INPUT_UDP_HOST := INPUT_UDP_HOST c; INPUT_UDP_PORT := INPUT_UDP_PORT c;
       input_sock := input_sock c; input_addr := input_addr c |}).

(** [INPUT_UDP_HOST = host; INPUT_UDP_PORT = port;
    input_addr = (INPUT_UDP_HOST, INPUT_UDP_PORT)] *)
Definition set_input_target (host : pyval) (port : Z) : World -> World :=
  with_cfg (fun c =>
    {| TELEMETRY_UDP_HOST := TELEMETRY_UDP_HOST c;
       TELEMETRY_UDP_PORT := TELEMETRY_UDP_PORT c;
       telemetry_sock := telemetry_sock c; telemetry_addr := telemetry_addr c;
       INPUT_UDP_HOST := host; INPUT_UDP_PORT := port;
       input_sock := input_sock c; input_addr := (host, port) |}).

Definition set_input_sock (s : option fd) : World -> World :=
  with_cfg (fun c =>
    {| TELEMETRY_UDP_HOST := TELEMETRY_UDP_HOST c;
       TELEMETRY_UDP_PORT := TELEMETRY_UDP_PORT c;
       telemetry_sock := telemetry_sock c; telemetry_addr := telemetry_addr c;
       INPUT_UDP_HOST := INPUT_UDP_HOST c; INPUT_UDP_PORT := INPUT_UDP_PORT c;
       input_sock := s; input_addr := input_addr c |}).

(** Record one external call. *)
Definition emit (e : event) : World -> World :=
  with_os (fun o =>
    {| sockets := sockets o; next_fd := next_fd o; files := files o;
       trace := trace o ++ [e] |}).

Definition set_sockets (f : gmap nat sockinfo -> gmap nat sockinfo) : World -> World :=
  with_os (fun o =>
    {| sockets := f (sockets o); next_fd := next_fd o; files := files o;
       trace := trace o |}).

Definition set_files (f : gmap string fcontent -> gmap string fcontent) : World -> World :=
  with_os (fun o =>
    {| sockets := sockets o; next_fd := next_fd o; files := f (files o);
       trace := trace o |}).

Definition bump_fd : World -> World :=
  with_os (fun o =>
    {| sockets := sockets o; next_fd := S (next_fd o); files := files o;
       trace := trace o |}).

End Updates.

(** [file_log(msg)], lines 34-43: appends to the debug log and never
    raises. *)
Definition file_log (msg : string) : World -> World := emit (EvLog msg).

(** ** Socket helpers (lines 87-137) *)

Inductive create_outcome :=
| CreateOk
| SocketRaises         (* socket.socket(...) raises: no descriptor exists *)
| BindRaises           (* the operating system refuses the bind *)
| SetblockingRaises.

(** [bind] and [sendto] raise by themselves unless the host is a string
    and the port fits 16 bits. *)
Definition address_ok (host : pyval) (port : Z) : bool :=
  match host with
  | PStr _ => (0 <=? port) && (port <=? 65535)
  | _ => false
  end.

Definition bind_raises (o : create_outcome) (host : pyval) (port : Z) : bool :=
  match o with
  | BindRaises => true
  | _ => negb (address_ok host port)
  end.

(** [socket.socket(AF_INET, SOCK_DGRAM)]: a fresh live descriptor. *)
Definition os_socket (w : World) : fd * World :=
  let s := next_fd (os w) in
  (s, emit (EvSocket s)
        (bump_fd (set_sockets (insert s (mkSock None true)) w))).

(** [s.close()].  The descriptor is released whether or not [close]
    reports an error; every call site swallows that error. *)
Definition sock_close (s : fd) (w : World) : World :=
  emit (EvClose s) (set_sockets (delete s) w).

(** The socket object of a failed [_create_udp_socket] is referenced by the
    local [s] only; when the function returns [None] the object is
    finalised, which releases its descriptor. *)
Definition sock_finalise (s : fd) (w : World) : World :=
  set_sockets (delete s) w.

Definition create_error : string := "_create_udp_socket error host=%s port=%s bind=%s: %s".

(** Lines 87-104. *)
Definition _create_udp_socket (o : create_outcome)
    (bind : bool) (host : pyval) (port : Z) (blocking : bool)
    (w : World) : option fd * World :=
  match o with
  | SocketRaises => (None, file_log create_error w)
  | _ =>
      let '(s, w1) := os_socket w in
      if bind && bind_raises o host port then
        (None, file_log create_error
                 (sock_finalise s (emit (EvBind s host port false) w1)))
      else
        let w2 :=
          if bind then
            emit (EvBind s host port true)
              (set_sockets (insert s (mkSock (Some (host, port)) true)) w1)
          else w1 in
        match o with
        | SetblockingRaises => (None, file_log create_error (sock_finalise s w2))
        | _ =>
            (Some s,
             set_sockets
               (alter (fun i => mkSock (sk_bound i) blocking) s) w2)
        end
  end.

(** Truth value of a socket global: an object, or [None]. *)
Definition live (s : option fd) : bool :=
  match s with Some _ => true | None => false end.

(** Lines 107-119. *)
Definition _close_socket (sock : option fd) (w : World) : World :=
  match sock with
  | Some s => file_log "Socket %s closed" (sock_close s w)
  | None => w
  end.

(** What the lookup of the host's command function and the call give. *)
Inductive host_outcome :=
| NoCallable      (* neither sendCMD, sendcmd nor ac.sendCommand is callable *)
| HostReturns
| HostRaises.

(** Lines 122-137. *)
Definition call_sendcmd (o : host_outcome) (code : Z) (w : World) : World :=
  match o with
  | NoCallable => w
  | HostReturns => emit (EvHostCmd code true) w
  | HostRaises => file_log "call_sendcmd failed: %s" (emit (EvHostCmd code false) w)
  end.

(** ** Writing a file through a temporary sibling

    The statement sequence of lines 313-319 and again of lines 665-672:
    [tmp = path + ".tmp"], write the document to [tmp], [os.replace(tmp,
    path)], and [os.rename(tmp, path)] if the replace raises.  The result
    is [false] when an exception leaves the sequence. *)

Definition tmp_of (path : string) : string := path +:+ ".tmp".

(** Moving [src] over [dst], as a successful replace or rename does. *)
Definition move_file (src dst : string) (fs : gmap string fcontent)
    : gmap string fcontent :=
  match fs !! src with
  | Some c => <[dst := c]> (delete src fs)
  | None => fs
  end.

Record write_outcomes := mkWriteOutcomes {
  o_write : write_outcome;
  o_replace : bool;
  o_rename : bool
}.

Definition write_tmp (o : write_outcome) (tmp : string) (doc : pyval)
    (w : World) : World :=
  emit (EvWrite tmp doc o)
    (match o with
     | WriteOk => set_files (insert tmp (Json doc)) w
     | OpenRaises => w
     | DumpRaises => set_files (insert tmp Garbage) w
     end).

Definition write_via_tmp (o : write_outcomes) (path : string) (doc : pyval)
    (w : World) : World * bool :=
  let tmp := tmp_of path in
  let w1 := write_tmp (o_write o) tmp doc w in
  match o_write o with
  | WriteOk =>
      if o_replace o then
        (emit (EvReplace tmp path true) (set_files (move_file tmp path) w1), true)
      else
        let w2 := emit (EvReplace tmp path false) w1 in
        if o_rename o then
          (emit (EvRename tmp path true) (set_files (move_file tmp path) w2), true)
        else (emit (EvRename tmp path false) w2, false)
  | _ => (w1, false)
  end.

(** ** The command processor (lines 162-326) *)

(** One outcome per external call site of [handle_input_data]. *)
Record hid_outcomes := mkHid {
  o_telemetry_socket : create_outcome;   (* line 208 *)
  o_rebind_socket : create_outcome;      (* line 243 *)
  o_enable_socket : create_outcome;      (* line 275 *)
  o_cmd68 : host_outcome;                (* line 297 *)
  o_cmd69 : host_outcome;                (* line 298 *)
  o_input_file : write_outcomes          (* lines 314-319 *)
}.

(** Lines 176-195: [telemetry_udp_host] / [telemetry_udp_port]. *)
Definition retarget_telemetry (d : pydict) (w : World) : World :=
  if Py.dict_has "telemetry_udp_host" d || Py.dict_has "telemetry_udp_port" d then
    let host := Py.dict_get_default "telemetry_udp_host" (TELEMETRY_UDP_HOST (cfg w)) d in
    let port := Py.dict_get_default "telemetry_udp_port" (PInt (TELEMETRY_UDP_PORT (cfg w))) d in
    match Py.int port with
    | Some p =>
        file_log "Telemetry UDP target updated to %s:%d via input"
          (set_telemetry_target host p w)
    | None => file_log "Invalid telemetry_udp_port in input: %s" w
    end
  else w.

(** Lines 197-225: [use_udp_telemetry]. *)
Definition switch_telemetry (o : hid_outcomes) (d : pydict) (w : World) : World :=
  if Py.dict_has "use_udp_telemetry" d then
    let use_udp := Py.get_bool "use_udp_telemetry" d in
    if negb use_udp && live (telemetry_sock (cfg w)) then
      file_log "Telemetry UDP disabled via input"
        (set_telemetry_sock None (_close_socket (telemetry_sock (cfg w)) w))
    else if use_udp && negb (live (telemetry_sock (cfg w))) then
      let '(s, w1) :=
        _create_udp_socket (o_telemetry_socket o) false
          (TELEMETRY_UDP_HOST (cfg w)) (TELEMETRY_UDP_PORT (cfg w)) true w in
      file_log "Telemetry UDP enabled via input to %s:%d"
        (set_telemetry_addr
           (TELEMETRY_UDP_HOST (cfg w), TELEMETRY_UDP_PORT (cfg w))
           (set_telemetry_sock s w1))
    else w
  else w.

(** Lines 227-262: [input_udp_host] / [input_udp_port]. *)
Definition rebind_input (o : hid_outcomes) (d : pydict) (w : World) : World :=
  if Py.dict_has "input_udp_host" d || Py.dict_has "input_udp_port" d then
    let host := Py.dict_get_default "input_udp_host" (INPUT_UDP_HOST (cfg w)) d in
    let port := Py.dict_get_default "input_udp_port" (PInt (INPUT_UDP_PORT (cfg w))) d in
    match Py.int port with
    | Some p =>
        let w1 := set_input_target host p w in
        let w2 :=
          match input_sock (cfg w1) with
          | Some s => set_input_sock None (sock_close s w1)
          | None => w1
          end in
        let '(s, w3) :=
          _create_udp_socket (o_rebind_socket o) true host p false w2 in
        file_log "Input UDP socket bound to %s:%d" (set_input_sock s w3)
    | None => file_log "Invalid input_udp_port in input: %s" w
    end
  else w.

(** Lines 264-292: [use_input_udp]. *)
Definition switch_input (o : hid_outcomes) (d : pydict) (w : World) : World :=
  if Py.dict_has "use_input_udp" d then
    let use_in := Py.get_bool "use_input_udp" d in
    if negb use_in && live (input_sock (cfg w)) then
      file_log "Input UDP disabled via input"
        (set_input_sock None (_close_socket (input_sock (cfg w)) w))
    else if use_in && negb (live (input_sock (cfg w))) then
      let '(s, w1) :=
        _create_udp_socket (o_enable_socket o) true
          (INPUT_UDP_HOST (cfg w)) (INPUT_UDP_PORT (cfg w)) false w in
      file_log "Input UDP enabled via input to %s:%d" (set_input_sock s w1)
    else w
  else w.

(** Truth value of the [path] argument. *)
Definition path_given (path : option string) : option string :=
  match path with
  | Some p => if String.eqb p "" then None else Some p
  | None => None
  end.

(** Lines 294-324: [reset]. *)
Definition consume_reset (o : hid_outcomes) (d : pydict) (path : option string)
    (w : World) : World :=
  if Py.get_is_True "reset" d then
    let w1 := call_sendcmd (o_cmd69 o) 69 (call_sendcmd (o_cmd68 o) 68 w) in
    match path_given path with
    | Some p =>
        let '(w2, ok) :=
          write_via_tmp (o_input_file o) p
            (PDict (Py.dict_set "reset" (PBool false) d)) w1 in
        if ok then w2 else file_log "Error writing input file after reset: %s" w2
    | None => w1
    end
  else w.

(** Lines 162-326.  Anything that is not a [dict] is ignored. *)
Definition handle_input_data (o : hid_outcomes) (cmd : pyval)
    (path : option string) (w : World) : World :=
  match cmd with
  | PDict d =>
      consume_reset o d path
        (switch_input o d
           (rebind_input o d
              (switch_telemetry o d
                 (retarget_telemetry d w))))
  | _ => w
  end.

(** ** Start-up and shut-down of the endpoints *)

(** Lines 431-461 of [acMain]: the two sockets of the app.  (The window
    and label set-up around them does not touch the transport state.) *)
Definition acMain (o_telemetry o_input : create_outcome) (w : World) : World :=
  let w0 :=
    file_log "AC_RL telemetry configured for UDP %s:%d and file %s"
      (file_log "acMain starting" w) in
  let '(ts, w1) :=
    _create_udp_socket o_telemetry false
      (TELEMETRY_UDP_HOST (cfg w0)) (TELEMETRY_UDP_PORT (cfg w0)) true w0 in
  let w2 :=
    set_telemetry_addr (TELEMETRY_UDP_HOST (cfg w0), TELEMETRY_UDP_PORT (cfg w0))
      (set_telemetry_sock ts w1) in
  let w3 :=
    if live ts then file_log "Telemetry UDP socket created to %s:%d" w2 else w2 in
  let '(ins, w4) :=
    _create_udp_socket o_input true
      (INPUT_UDP_HOST (cfg w3)) (INPUT_UDP_PORT (cfg w3)) false w3 in
  let w5 :=
    with_cfg (fun c =>
      {| TELEMETRY_UDP_HOST := TELEMETRY_UDP_HOST c;
         TELEMETRY_UDP_PORT := TELEMETRY_UDP_PORT c;
         telemetry_sock := telemetry_sock c; telemetry_addr := telemetry_addr c;
         INPUT_UDP_HOST := INPUT_UDP_HOST c; INPUT_UDP_PORT := INPUT_UDP_PORT c;
         input_sock := ins;
         input_addr := (INPUT_UDP_HOST c, INPUT_UDP_PORT c) |}) w4 in
  if live ins then file_log "Input UDP socket bound to %s:%d" w5 else w5.

(** Lines 693-722. *)
Definition acShutdown (w : World) : World :=
  let w1 :=
    match telemetry_sock (cfg w) with
    | Some s => file_log "Telemetry socket closed"
                  (set_telemetry_sock None (sock_close s w))
    | None => w
    end in
  match input_sock (cfg w1) with
  | Some s => file_log "Input socket closed" (set_input_sock None (sock_close s w1))
  | None => w1
  end.

(** ** The file-backed and the UDP command source (lines 329-400) *)

(** The six [ac_api] modules the app imports. *)
Inductive modname :=
| tyre_info | car_info | car_stats | input_info | lap_info | session_info.

(** What stays fixed while the app runs. *)
Record Host := mkHost {
  documents_path : option string;      (* ac.getDocumentsPath(); None: it raises *)
  app_dir : string;                    (* os.path.dirname(__file__) *)
  imported : bool;                     (* the imports of lines 47-52 went through *)
  has_fn : modname -> string -> bool   (* getattr(mod, name, None) is not None *)
}.

(** Lines 46-54: the module global [m] is not [None].  One failed import
    sets all six globals to [None]. *)
Definition loaded (h : Host) (m : modname) : bool := imported h.

(** [os.path.join(dir, file)] for a directory name that is not empty and
    does not end in a separator. *)
Definition path_join (dir file : string) : string := dir +:+ "/" +:+ file.

Definition docs_dir (h : Host) : string :=
  match documents_path h with Some d => d | None => app_dir h end.

Definition exists_file (p : string) (w : World) : bool :=
  match files (os w) !! p with Some _ => true | None => false end.

(** Lines 336-349: where the command file is, if there is one. *)
Definition input_file_path (h : Host) (w : World) : option string :=
  let path := path_join (docs_dir h) "AC_RL_input.json" in
  if exists_file path w then Some path
  else
    let alt := path_join (app_dir h) "AC_RL_input.json" in
    if exists_file alt w then Some alt else None.

(** One [recvfrom] that returned a datagram: what [json.loads] makes of it
    ([None]: it raises), and the outcomes met while it is processed. *)
Record datagram_in := mkDatagramIn {
  dg_json : option pyval;
  dg_outcomes : hid_outcomes
}.

(** Lines 377-395: the drain loop.  [rx] lists the datagrams the successive
    [recvfrom] calls return; after them [recvfrom] raises [BlockingIOError]
    and the loop ends, as it does with the [OSError] of a socket that is
    closed.  The global [input_sock] is read afresh at every turn: once a
    command has set it to [None], [input_sock.recvfrom] raises
    [AttributeError], which line 396 catches. *)
Fixpoint drain_input (rx : list datagram_in) (w : World) : World :=
  match input_sock (cfg w) with
  | None => file_log "Error reading from input UDP socket: %s" w
  | Some s =>
      match rx, sockets (os w) !! s with
      | dg :: rest, Some _ =>
          match dg_json dg with
          | None =>
              drain_input rest
                (file_log "Error parsing input UDP JSON from %s: %s" w)
          | Some cmd =>
              drain_input rest (handle_input_data (dg_outcomes dg) cmd None w)
          end
      | _, _ => w
      end
  end.

Record intake := mkIntake {
  in_read_ok : bool;                (* opening and reading the file works *)
  in_file_outcomes : hid_outcomes;  (* while the file's command is processed *)
  in_rx : list datagram_in
}.

Definition is_dict (v : pyval) : bool :=
  match v with PDict _ => true | _ => false end.

(** Lines 329-400. *)
Definition check_input_file (h : Host) (i : intake) (w : World) : World :=
  let path := input_file_path h w in
  let '(data, w1) :=
    match path with
    | Some p =>
        match (if in_read_ok i then files (os w) !! p else None) with
        | Some (Json doc) => (Some doc, w)
        | _ => (None, file_log "Error reading input file: %s" w)
        end
    | None => (None, w)
    end in
  let w2 :=
    match data with
    | Some doc =>
        if is_dict doc then handle_input_data (in_file_outcomes i) doc path w1
        else w1
    | None => w1
    end in
  if live (input_sock (cfg w2)) then drain_input (in_rx i) w2 else w2.

(** ** Sampling (lines 67-83 and 510-642) *)

Inductive call_result :=
| Returns (v : pyval)
| Raises.

(** Results of the calls into [ac_api] during one tick, by module, function
    name and arguments. *)
Abbreviation provider := (modname -> string -> list pyval -> call_result).

(** Lines 67-83. *)
Definition safe_call (h : Host) (call : provider)
    (m : modname) (name : string) (args : list pyval) (default : pyval)
    (w : World) : pyval * World :=
  if negb (loaded h m) then (default, w)
  else if negb (has_fn h m name) then (default, w)
  else
    match call m name args with
    | Returns v => (v, w)
    | Raises => (default, file_log "safe_call error %s.%s: %s" w)
    end.

(** An entry [key: safe_call(mod, name, args...)] of a dict display. *)
Record field := mkField {
  f_key : string;
  f_name : string;
  f_args : list pyval
}.

(** The entries of a dict display, evaluated from first to last. *)
Fixpoint sample_fields (h : Host) (call : provider) (m : modname)
    (fs : list field) (w : World) : pydict * World :=
  match fs with
  | [] => ([], w)
  | f :: r =>
      let '(v, w1) := safe_call h call m (f_name f) (f_args f) PNone w in
      let '(d, w2) := sample_fields h call m r w1 in
      ((f_key f, v) :: d, w2)
  end.

(** Lines 531-564, without the ["index"] entry. *)
Definition tyre_fields (t : Z) : list field :=
  [ mkField "wear" "get_tyre_wear_value" [PInt t];
    mkField "dirty" "get_tyre_dirty" [PInt t];
    mkField "pressure" "get_tyre_pressure" [PInt t];
    mkField "temp_i" "get_tyre_temp" [PInt t; PStr "i"];
    mkField "temp_m" "get_tyre_temp" [PInt t; PStr "m"];
    mkField "temp_o" "get_tyre_temp" [PInt t; PStr "o"];
    mkField "slip_ratio" "get_slip_ratio" [PInt t];
    mkField "slip_angle" "get_slip_angle" [PInt t];
    mkField "heading_vector" "get_tyre_heading_vector" [PInt t];
    mkField "angular_speed" "get_angular_speed" [PInt t] ].

(** Lines 567-578. *)
Definition session_fields : list field :=
  [ mkField "session_type" "get_session_type" [];
    mkField "driver_name" "get_driver_name" [];
    mkField "track_name" "get_track_name" [];
    mkField "track_config" "get_track_config" [];
    mkField "track_length" "get_track_length" [];
    mkField "cars_count" "get_cars_count" [];
    mkField "session_status" "get_session_status" [];
    mkField "air_temp" "get_air_temp" [];
    mkField "road_temp" "get_road_temp" [] ].

(** Lines 580-599. *)
Definition car_fields : list field :=
  [ mkField "speed_kmh" "get_speed" [PInt 0; PStr "kmh"];
    mkField "speed_mph" "get_speed" [PInt 0; PStr "mph"];
    mkField "speed_ms" "get_speed" [PInt 0; PStr "ms"];
    mkField "location" "get_location" [PInt 0];
    mkField "world_location" "get_world_location" [PInt 0];
    mkField "position" "get_position" [PInt 0];
    mkField "drs_available" "get_drs_available" [];
    mkField "drs_enabled" "get_drs_enabled" [];
    mkField "gear" "get_gear" [PInt 0; PBool true];
    mkField "rpm" "get_rpm" [PInt 0];
    mkField "fuel" "get_fuel" [];
    mkField "tyres_off_track" "get_tyres_off_track" [];
    mkField "in_pit_lane" "get_car_in_pit_lane" [];
    mkField "damage" "get_total_damage" [];
    mkField "cg_height" "get_cg_height" [PInt 0];
    mkField "drive_train_speed" "get_drive_train_speed" [PInt 0];
    mkField "velocity" "get_velocity" [];
    mkField "acceleration" "get_acceleration" [] ].

(** Lines 601-607. *)
Definition inputs_fields : list field :=
  [ mkField "gas" "get_gas_input" [PInt 0];
    mkField "brake" "get_brake_input" [PInt 0];
    mkField "clutch" "get_clutch" [PInt 0];
    mkField "steer" "get_steer_input" [PInt 0];
    mkField "last_ff" "get_last_ff" [PInt 0] ].

(** Lines 609-622. *)
Definition lap_fields : list field :=
  [ mkField "get_current_lap_time" "get_current_lap_time" [PInt 0; PBool false];
    mkField "get_last_lap_time" "get_last_lap_time" [PInt 0; PBool false];
    mkField "get_best_lap_time" "get_best_lap_time" [PInt 0; PBool false];
    mkField "get_splits" "get_splits" [PInt 0; PBool false];
    mkField "get_split" "get_split" [];
    mkField "get_invalid" "get_invalid" [PInt 0];
    mkField "get_lap_count" "get_lap_count" [PInt 0];
    mkField "get_laps" "get_laps" [];
    mkField "get_lap_delta" "get_lap_delta" [PInt 0];
    mkField "get_current_sector" "get_current_sector" [] ].

(** Lines 624-631. *)
Definition stats_fields : list field :=
  [ mkField "has_drs" "get_has_drs" [];
    mkField "has_ers" "get_has_ers" [];
    mkField "has_kers" "get_has_kers" [];
    mkField "abs_level" "abs_level" [];
    mkField "max_rpm" "get_max_rpm" [];
    mkField "max_fuel" "get_max_fuel" [] ].

(** Lines 528-565: the list of the four tyre dicts. *)
Fixpoint sample_tyres (h : Host) (call : provider) (ts : list Z) (w : World)
    : list pyval * World :=
  match ts with
  | [] => ([], w)
  | t :: r =>
      let '(d, w1) := sample_fields h call tyre_info (tyre_fields t) w in
      let '(l, w2) := sample_tyres h call r w1 in
      (PDict (("index", PInt t) :: d) :: l, w2)
  end.

Definition appName : string := "AC_RL".
Definition TELEMETRY_FILENAME : string := "AC_RL_telemetry.json".

(** Lines 528-642: the snapshot of one tick; [now] is [time.time()]. *)
Definition build_payload (h : Host) (call : provider) (now : pyfloat)
    (w : World) : pyval * World :=
  let '(tyres, w1) := sample_tyres h call [0; 1; 2; 3] w in
  let '(session, w2) := sample_fields h call session_info session_fields w1 in
  let '(car, w3) := sample_fields h call car_info car_fields w2 in
  let '(inputs, w4) := sample_fields h call input_info inputs_fields w3 in
  let '(lap, w5) := sample_fields h call lap_info lap_fields w4 in
  let '(stats, w6) := sample_fields h call car_stats stats_fields w5 in
  (PDict [ ("app", PStr appName);
           ("timestamp", PFloat now);
           ("session", PDict session);
           ("car", PDict car);
           ("inputs", PDict inputs);
           ("lap", PDict lap);
           ("tyres", PList tyres);
           ("stats", PDict stats) ], w6).

(** ** The label refresh (lines 510-523) *)

(** The six unguarded calls of one turn of the loop, as (name, args). *)
Definition label_calls (t : Z) : list (string * list pyval) :=
  [ ("get_tyre_wear_value", [PInt t]);
    ("get_tyre_dirty", [PInt t]);
    ("get_tyre_pressure", [PInt t]);
    ("get_tyre_temp", [PInt t; PStr "i"]);
    ("get_tyre_temp", [PInt t; PStr "m"]);
    ("get_tyre_temp", [PInt t; PStr "o"]) ].

(** A direct call [tyre_info.name(args...)]: a missing attribute raises. *)
Definition direct_call (h : Host) (call : provider) (c : string * list pyval)
    : call_result :=
  if has_fn h tyre_info (fst c) then call tyre_info (fst c) (snd c) else Raises.

(** What the format specs [.1f] and [.2f] accept. *)
Definition formats_as_float (r : call_result) : bool :=
  match r with
  | Returns (PInt _) | Returns (PFloat _) | Returns (PBool _) => true
  | _ => false
  end.

(** The loop over [range(4)]; [false] when an exception leaves it. *)
Fixpoint update_labels (h : Host) (call : provider) (settext : Z -> bool)
    (ts : list Z) (w : World) : World * bool :=
  match ts with
  | [] => (w, true)
  | t :: r =>
      if forallb (fun c => formats_as_float (direct_call h call c)) (label_calls t)
      then
        if settext t then
          update_labels h call settext r (emit (EvSetText (Z.to_nat t)) w)
        else (w, false)
      else (w, false)
  end.

(** ** The tick handler (lines 490-690) *)

Inductive completion :=
| Returned
| Escaped.       (* an exception leaves the function *)

Record tick_outcomes := mkTick {
  t_intake : intake;
  t_call : provider;
  t_settext : Z -> bool;             (* ac.setText returns normally *)
  t_now : pyfloat;                   (* time.time() *)
  t_send : bool;                     (* the operating system takes the datagram *)
  t_telemetry_file : write_outcomes; (* lines 667-672 *)
  t_aclog_write : bool;              (* ac.log returns normally, line 674 *)
  t_aclog_payload : bool;            (* line 680 *)
  t_aclog_labels : bool              (* line 686 *)
}.

(** An [except] clause that calls [ac.log] and then, guarded, [file_log].
    The call to [ac.log] is not guarded: [false] when it raises. *)
Definition log_both (aclog_ok : bool) (msg : string) (w : World) : World * bool :=
  if aclog_ok then
    (file_log msg (emit (EvAcLog ("[AC_RL] " +:+ msg) true) w), true)
  else (emit (EvAcLog ("[AC_RL] " +:+ msg) false) w, false).

(** How far lines 502-642 get. *)
Inductive sampled :=
| NoTyreInfo                   (* line 502: [tyre_info is None] *)
| LabelsRaised                 (* an exception left the loop of lines 510-523 *)
| Snapshot (payload : pyval).

Definition sample_tick (h : Host) (o : tick_outcomes) (w : World)
    : sampled * World :=
  if negb (loaded h tyre_info) then
    (NoTyreInfo, file_log "tyre_info is None; skipping update" w)
  else
    let '(w1, ok) := update_labels h (t_call o) (t_settext o) [0; 1; 2; 3] w in
    if ok then
      let '(payload, w2) := build_payload h (t_call o) (t_now o) w1 in
      (Snapshot payload, w2)
    else (LabelsRaised, w1).

(** [sendto] on descriptor [s] goes through. *)
Definition sendto_ok (o : tick_outcomes) (s : fd) (addr : pyval * Z) (w : World)
    : bool :=
  t_send o && address_ok (fst addr) (snd addr)
  && match sockets (os w) !! s with Some _ => true | None => false end.

Definition telemetry_path (h : Host) : string :=
  path_join (docs_dir h) TELEMETRY_FILENAME.

(** Lines 644-655: [sent] and the world after the attempt. *)
Definition send_udp (o : tick_outcomes) (payload : pyval) (w : World)
    : bool * World :=
  match telemetry_sock (cfg w) with
  | Some s =>
      let ok := sendto_ok o s (telemetry_addr (cfg w)) w in
      let w1 := emit (EvSendto s payload (telemetry_addr (cfg w)) ok) w in
      if ok then (true, w1)
      else (false, file_log "Error sending telemetry via UDP: %s" w1)
  | None => (false, w)
  end.

(** Lines 644-678; [false] when an exception leaves them. *)
Definition deliver (h : Host) (o : tick_outcomes) (payload : pyval) (w : World)
    : World * bool :=
  let '(sent, w1) := send_udp o payload w in
  if sent then (w1, true)
  else
    let '(w2, ok) :=
      write_via_tmp (t_telemetry_file o) (telemetry_path h) payload w1 in
    if ok then (w2, true)
    else log_both (t_aclog_write o) "Error writing telemetry file: %s" w2.

(** Lines 490-690. *)
Definition acUpdate (h : Host) (o : tick_outcomes) (w : World)
    : World * completion :=
  let w0 := check_input_file h (t_intake o) w in
  match sample_tick h o w0 with
  | (NoTyreInfo, w1) => (w1, Returned)
  | (LabelsRaised, w1) =>
      let '(w2, ok) :=
        log_both (t_aclog_labels o) "Error updating tyre labels: %s" w1 in
      (w2, if ok then Returned else Escaped)
  | (Snapshot payload, w1) =>
      let '(w2, ok) := deliver h o payload w1 in
      if ok then (w2, Returned)
      else
        let '(w3, ok') :=
          log_both (t_aclog_payload o) "Error preparing telemetry payload: %s" w2 in
        if ok' then (w3, Returned)
        else
          let '(w4, ok'') :=
            log_both (t_aclog_labels o) "Error updating tyre labels: %s" w3 in
          (w4, if ok'' then Returned else Escaped)
  end.

(** Line 487: the render callback runs the update routine. *)
Definition appGL (h : Host) (o : tick_outcomes) (w : World)
    : World * completion :=
  acUpdate h o w.

(** ** The aggregating receiver ([telemetry.py]) *)

(** *** [hexdump] (lines 6-11)

    Bytes are [Byte.byte]; a printed line is a [string]. *)

Module Hexdump.

(** One hexadecimal digit, lower case. *)
Definition hex_digit (n : N) : ascii :=
  ascii_of_N (if (n <? 10)%N then 48 + n else 87 + n).

(** The [k] low hexadecimal digits of [n], most significant first. *)
Fixpoint hex_digits (k : nat) (n : N) : list ascii :=
  match k with
  | O => []
  | S k' => hex_digits k' (n / 16) ++ [hex_digit (n mod 16)]
  end.

(** The number of hexadecimal digits of [n], one for 0. *)
Definition hex_len (n : N) : nat := S (N.to_nat (N.log2 n / 4)).

(** [format(n, "0{w}x")]: the digits of [n], padded with zeros on the left
    to [w] characters. *)
Definition format_hex (w : nat) (n : N) : list ascii :=
  hex_digits (Nat.max w (hex_len n)) n.

(** [sep.join(parts)] *)
Fixpoint join (sep : list ascii) (parts : list (list ascii)) : list ascii :=
  match parts with
  | [] => []
  | p :: r =>
      match r with
      | [] => p
      | _ :: _ => p ++ sep ++ join sep r
      end
  end.

(** [format(s, "<{w}")]: padded with blanks on the right, never cut. *)
Definition ljust (w : nat) (s : list ascii) : list ascii :=
  s ++ repeat " "%char (w - length s).

(** [chr(x) if 32 <= x < 127 else "."] *)
Definition ascii_part (x : Byte.byte) : ascii :=
  let n := Byte.to_N x in
  if ((32 <=? n) && (n <? 127))%N then ascii_of_byte x else "."%char.

(** [f"{x:02x}"] *)
Definition hex2 (x : Byte.byte) : list ascii := format_hex 2 (Byte.to_N x).

(** Line 11: the line printed for the chunk at offset [i]. *)
Definition line (width i : nat) (chunk : list Byte.byte) : string :=
  string_of_list_ascii
    (format_hex 8 (N.of_nat i) ++ [" "; " "]%char
     ++ ljust (width * 3) (join [" "%char] (map hex2 chunk)) ++ [" "; " "]%char
     ++ map ascii_part chunk).

(** [range(start, start + count * step, step)] *)
Fixpoint range_from (count start step : nat) : list nat :=
  match count with
  | O => []
  | S c => start :: range_from c (start + step) step
  end.

(** [range(0, n, step)] for a positive [step]. *)
Definition range_step (n step : nat) : list nat :=
  range_from ((n + step - 1) / step) 0 step.

(** Lines 6-11.  The lines printed; [None] for the [ValueError] of a
    [range] whose step is zero. *)
Definition hexdump (b : list Byte.byte) (width : Z) : option (list string) :=
  if width =? 0 then None
  else if width <? 0 then Some []
  else
    let w := Z.to_nat width in
    Some (map (fun i => line w i (take w (drop i b))) (range_step (length b) w)).

(** *** Reading a dump back *)

Definition unhex_digit (c : ascii) : option N :=
  let n := N_of_ascii c in
  if ((48 <=? n) && (n <=? 57))%N then Some (n - 48)%N
  else if ((97 <=? n) && (n <=? 102))%N then Some (n - 87)%N
  else None.

(** [int(s, 16)] for a string of lower-case digits. *)
Fixpoint unhex (acc : N) (s : list ascii) : option N :=
  match s with
  | [] => Some acc
  | c :: r =>
      match unhex_digit c with
      | Some d => unhex (16 * acc + d) r
      | None => None
      end
  end.

Definition unhex_byte (a b : ascii) : option Byte.byte :=
  match unhex_digit a, unhex_digit b with
  | Some h, Some l => Byte.of_N (16 * h + l)
  | _, _ => None
  end.

Definition is_blank (c : ascii) : bool := Ascii.eqb c " ".

(** The bytes of a column of two-digit groups separated by single blanks
    and followed by blanks only. *)
Fixpoint unhex_column (s : list ascii) : option (list Byte.byte) :=
  match s with
  | a :: b :: rest =>
      if is_blank a then (if forallb is_blank s then Some [] else None)
      else
        match unhex_byte a b with
        | Some x =>
            match rest with
            | [] => Some [x]
            | c :: rest' =>
                if is_blank c then
                  match unhex_column rest' with
                  | Some l => Some (x :: l)
                  | None => None
                  end
                else None
            end
        | None => None
        end
  | _ => if forallb is_blank s then Some [] else None
  end.

(** The characters before the first blank, and what follows them. *)
Fixpoint split_blank (s : list ascii) : list ascii * list ascii :=
  match s with
  | [] => ([], [])
  | c :: r =>
      if is_blank c then ([], s)
      else let '(a, b) := split_blank r in (c :: a, b)
  end.

Record parsed_line := mkParsed {
  p_offset : N;
  p_bytes : list Byte.byte;
  p_text : list ascii
}.

(** Reads a line of a dump of the given width: offset, two blanks, the
    column of [3 * width] characters, two blanks, the text. *)
Definition parse_line (width : nat) (l : string) : option parsed_line :=
  let '(off, r) := split_blank (list_ascii_of_string l) in
  match off, r with
  | _ :: _, s1 :: s2 :: r1 =>
      if is_blank s1 && is_blank s2 then
        let col := take (width * 3) r1 in
        match drop (width * 3) r1 with
        | t1 :: t2 :: text =>
            if is_blank t1 && is_blank t2 then
              match unhex 0 off, unhex_column col with
              | Some i, Some bs => Some (mkParsed i bs text)
              | _, _ => None
              end
            else None
        | _ => None
        end
      else None
  | _, _ => None
  end.

Fixpoint parse_lines (width : nat) (ls : list string) : option (list parsed_line) :=
  match ls with
  | [] => Some []
  | l :: r =>
      match parse_line width l, parse_lines width r with
      | Some p, Some ps => Some (p :: ps)
      | _, _ => None
      end
  end.

(** The two digits of a byte read back as the byte. *)
Definition hex2_reads_back (x : Byte.byte) : bool :=
  match hex2 x with
  | [a; b] =>
      negb (is_blank a)
      && match unhex_byte a b with
         | Some y => Byte.eqb x y
         | None => false
         end
  | _ => false
  end.

(** Line 10: the codes that are shown as they are. *)
Definition printable_ascii (c : ascii) : bool :=
  let n := N_of_ascii c in ((32 <=? n) && (n <? 127))%N.

End Hexdump.

(** *** The loop (lines 14-67) *)

Module Receiver.

(** A received datagram, with what the decoders of the loop make of it.
    The text is kept as its UTF-8 bytes: a character is printable ASCII
    exactly when it is one such byte. *)
Record datagram := mkDatagram {
  size : nat;                  (* len(data) *)
  decoded : option string;     (* data.decode("utf-8"); None: UnicodeDecodeError *)
  parsed : option pyval        (* json.loads(text); None: JSONDecodeError *)
}.

Abbreviation address := (string * Z)%type.

(** What the loop prints. *)
Inductive printed :=
| Summary (count : Z) (len : nat) (from : address)
    (* got {pkt_count} packets, last {len(data)} bytes from {addr} *)
| BinaryData                     (* binary data: *)
| Hexdump (d : datagram)         (* the lines of hexdump(data) *)
| InputsJson (obj : pyval)       (* json.dumps(obj, indent=2) *)
| RawText (text : string)
| SomethingWrong.

(** Times are counted in milliseconds. *)
Definition one_second : Z := 1000.

Record state := mkState {
  last_print : Z;
  last_pkt : option (datagram * address);
  pkt_count : Z;
  output : list printed
}.

(** Lines 20-22. *)
Definition start : state :=
  {| last_print := 0; last_pkt := None; pkt_count := 0; output := [] |}.

(** One turn of the loop: what [recvfrom] gives within its 0.1 s
    ([None]: [socket.timeout]) and the clock read after it. *)
Record turn := mkTurn {
  recv : option (datagram * address);
  now : Z
}.

Definition print (p : printed) (st : state) : state :=
  {| last_print := last_print st; last_pkt := last_pkt st;
     pkt_count := pkt_count st; output := output st ++ [p] |}.

(** [last_print = now; last_pkt = None; pkt_count = 0] *)
Definition reset (t : Z) (st : state) : state :=
  {| last_print := t; last_pkt := None; pkt_count := 0; output := output st |}.

(** Lines 25-30. *)
Definition receive (r : option (datagram * address)) (st : state) : state :=
  match r with
  | Some p =>
      {| last_print := last_print st; last_pkt := Some p;
         pkt_count := pkt_count st + 1; output := output st |}
  | None => st
  end.

(** [json.loads(text)["inputs"]] on a parsed document. *)
Inductive subscript :=
| Found (v : pyval)
| KeyError       (* a dict without the key *)
| TypeError.     (* not a dict *)

Definition inputs_of (v : pyval) : subscript :=
  match v with
  | PDict d =>
      match Py.dict_get "inputs" d with
      | Some x => Found x
      | None => KeyError
      end
  | _ => TypeError
  end.

(** Line 58. *)
Definition printable_char (c : ascii) : bool :=
  let n := nat_of_ascii c in
  (Nat.leb 32 n && Nat.ltb n 127)
  || Nat.eqb n 13 || Nat.eqb n 10 || Nat.eqb n 9.

Fixpoint printable (s : string) : bool :=
  match s with
  | EmptyString => true
  | String c r => printable_char c && printable r
  end.

(** Lines 34-65, entered when a summary is due.  [false]: an exception
    that no clause of the loop catches leaves it. *)
Definition summarise (d : datagram) (from : address) (t : Z) (st : state)
    : state * bool :=
  let st1 := print (Summary (pkt_count st) (size d) from) st in
  match decoded d with
  | None => (reset t (print (Hexdump d) (print BinaryData st1)), true)
  | Some text =>
      let fall_through :=
        (reset t
           (print (if printable text then RawText text else SomethingWrong)
              st1), true) in
      match parsed d with
      | Some v =>
          match inputs_of v with
          | Found obj => (reset t (print (InputsJson obj) st1), true)
          | KeyError | TypeError => (st1, false)
          end
      | None => fall_through
      end
  end.

(** Lines 25-65: one turn. *)
Definition iteration (i : turn) (st : state) : state * bool :=
  let st1 := receive (recv i) st in
  match last_pkt st1 with
  | Some (d, from) =>
      if one_second <=? now i - last_print st1 then summarise d from (now i) st1
      else (st1, true)
  | None => (st1, true)
  end.

(** The loop, for as long as the given turns last or until an exception
    ends it. *)
Fixpoint run (turns : list turn) (st : state) : state * bool :=
  match turns with
  | [] => (st, true)
  | i :: r =>
      let '(st1, ok) := iteration i st in
      if ok then run r st1 else (st1, false)
  end.

End Receiver.

(** * Notions used in the statements *)

(** ** Handles and the invariant that ties them to the live sockets *)

(** The live command-in handles: the live descriptors that are bound. *)
Definition command_in_handle (w : World) (s : fd) : Prop :=
  ∃ i, sockets (os w) !! s = Some i ∧ is_Some (sk_bound i).

(** The socket globals and the live descriptors agree. *)
Record consistent (w : World) : Prop := mkConsistent {
  fresh_fd : ∀ s, is_Some (sockets (os w) !! s) → (s < next_fd (os w))%nat;
  bound_is_input : ∀ s i,
    sockets (os w) !! s = Some i → is_Some (sk_bound i) →
    input_sock (cfg w) = Some s;
  unbound_is_telemetry : ∀ s i,
    sockets (os w) !! s = Some i → sk_bound i = None →
    telemetry_sock (cfg w) = Some s;
  input_is_bound : ∀ s,
    input_sock (cfg w) = Some s →
    ∃ i, sockets (os w) !! s = Some i ∧ is_Some (sk_bound i);
  telemetry_is_unbound : ∀ s,
    telemetry_sock (cfg w) = Some s →
    ∃ i, sockets (os w) !! s = Some i ∧ sk_bound i = None
}.


(** ** Kinds of calls, and traces that grow *)

Inductive event_kind :=
| LogCall | SocketCall | BindCall | HostCall | FileCall | SendCall | UiCall.

Definition kind (e : event) : event_kind :=
  match e with
  | EvLog _ | EvAcLog _ _ => LogCall
  | EvSocket _ | EvClose _ => SocketCall
  | EvBind _ _ _ _ => BindCall
  | EvHostCmd _ _ => HostCall
  | EvWrite _ _ _ | EvReplace _ _ _ | EvRename _ _ _ => FileCall
  | EvSendto _ _ _ _ => SendCall
  | EvSetText _ => UiCall
  end.

(** [w'] was reached from [w] by making calls of the kinds [ks] only. *)
Definition grows (ks : list event_kind) (w w' : World) : Prop :=
  ∃ evs, trace (os w') = trace (os w) ++ evs ∧ Forall (fun e => kind e ∈ ks) evs.

(** ** Calls and outcomes of the command processor *)

(** The calls of the temp-file-then-replace pattern for [path]: write the
    temporary sibling, replace the target with it, rename if the replace
    raised. *)
Definition atomic_write_calls (wo : write_outcomes) (path : string) (doc : pyval)
    : list event :=
  EvWrite (tmp_of path) doc (o_write wo)
  :: match o_write wo with
     | WriteOk =>
         EvReplace (tmp_of path) path (o_replace wo)
         :: (if o_replace wo then []
             else [EvRename (tmp_of path) path (o_rename wo)])
     | _ => []
     end.

(** The temporary file was written and moved onto the target. *)
Definition write_succeeds (wo : write_outcomes) : bool :=
  match o_write wo with
  | WriteOk => o_replace wo || o_rename wo
  | _ => false
  end.

(** The codes the host's command function was called with. *)
Fixpoint host_calls (tr : list event) : list Z :=
  match tr with
  | [] => []
  | EvHostCmd code _ :: r => code :: host_calls r
  | _ :: r => host_calls r
  end.

Definition callable (ho : host_outcome) : bool :=
  match ho with NoCallable => false | _ => true end.

(** [_create_udp_socket(bind=True, ...)] returns [None]. *)
Definition creation_fails (c : create_outcome) (host : pyval) (port : Z) : bool :=
  match c with
  | CreateOk => negb (address_ok host port)
  | _ => true
  end.

(** ** The snapshot as a function of what the providers return *)

(** What [safe_call] leaves in a field: what the call returned, and
    [None] when the module or the function is missing or the call raises. *)
Definition sampled_value (h : Host) (call : provider) (m : modname) (f : field)
    : pyval :=
  if loaded h m && has_fn h m (f_name f) then
    match call m (f_name f) (f_args f) with
    | Returns v => v
    | Raises => PNone
    end
  else PNone.

Definition group_of (h : Host) (call : provider) (m : modname) (fs : list field)
    : pydict :=
  map (fun f => (f_key f, sampled_value h call m f)) fs.

Definition tyre_of (h : Host) (call : provider) (t : Z) : pyval :=
  PDict (("index", PInt t) :: group_of h call tyre_info (tyre_fields t)).

Definition snapshot_of (h : Host) (call : provider) (now : pyfloat) : pyval :=
  PDict [ ("app", PStr appName);
          ("timestamp", PFloat now);
          ("session", PDict (group_of h call session_info session_fields));
          ("car", PDict (group_of h call car_info car_fields));
          ("inputs", PDict (group_of h call input_info inputs_fields));
          ("lap", PDict (group_of h call lap_info lap_fields));
          ("tyres", PList (map (tyre_of h call) [0; 1; 2; 3]));
          ("stats", PDict (group_of h call car_stats stats_fields)) ].

(** The label refresh of lines 510-523 runs to its end. *)
Definition labels_ok (h : Host) (call : provider) (settext : Z -> bool)
    (ts : list Z) : bool :=
  forallb
    (fun t =>
       forallb (fun c => formats_as_float (direct_call h call c)) (label_calls t)
       && settext t)
    ts.

(** The tick gets as far as a snapshot. *)
Definition snapshot_built (h : Host) (o : tick_outcomes) : bool :=
  loaded h tyre_info && labels_ok h (t_call o) (t_settext o) [0; 1; 2; 3].

(** The tick brings no command: no command file, no datagram. *)
Definition no_commands (h : Host) (i : intake) (w : World) : Prop :=
  input_file_path h w = None ∧ in_rx i = [].


(** The part of the world that sampling and logging leave alone. *)
Definition same_state (w w' : World) : Prop :=
  cfg w' = cfg w ∧ sockets (os w') = sockets (os w) ∧
  next_fd (os w') = next_fd (os w) ∧ files (os w') = files (os w).

(** [sent] of lines 644-655: the handle is live and [sendto] goes
    through. *)
Definition udp_sent (o : tick_outcomes) (w : World) : bool :=
  match telemetry_sock (cfg w) with
  | Some s => sendto_ok o s (telemetry_addr (cfg w)) w
  | None => false
  end.

(** The calls of the primary path. *)
Definition send_calls (o : tick_outcomes) (payload : pyval) (w : World)
    : list event :=
  match telemetry_sock (cfg w) with
  | Some s =>
      EvSendto s payload (telemetry_addr (cfg w)) (udp_sent o w)
      :: (if udp_sent o w then []
          else [EvLog "Error sending telemetry via UDP: %s"])
  | None => []
  end.

(** ** Reading a snapshot *)




(** ** Worlds, hosts and ticks used as examples *)

(** An app whose two sockets were created at start-up. *)
Definition started : World := acMain CreateOk CreateOk (initial_world ∅).

(** Every external call goes well. *)
Definition all_well : hid_outcomes :=
  mkHid CreateOk CreateOk CreateOk HostReturns HostReturns
    (mkWriteOutcomes WriteOk true true).

(** All of [ac_api] imported, every function there. *)
Definition full_host : Host :=
  mkHost (Some "docs") "app" true (fun _ _ => true).


(** Every query returns 1. *)
Definition ones : provider := fun _ _ _ => Returns (PInt 1).




Definition cannot_open : write_outcomes := mkWriteOutcomes OpenRaises true true.

(** ** The receiver's print intervals *)

Module Aggregation.

Import Receiver.

(** The datagrams that arrive during the given turns. *)
Fixpoint received (turns : list turn) : list (datagram * address) :=
  match turns with
  | [] => []
  | i :: r =>
      match recv i with
      | Some p => p :: received r
      | None => received r
      end
  end.

(** The payload takes one of the three paths of the loop that end in a
    reset: it is not UTF-8, or not JSON, or a JSON object with an
    ["inputs"] entry. *)
Definition classifiable (d : datagram) : bool :=
  match decoded d, parsed d with
  | Some _, Some v =>
      match inputs_of v with Found _ => true | _ => false end
  | _, _ => true
  end.

Definition is_summary (p : printed) : bool :=
  match p with Summary _ _ _ => true | _ => false end.



(** A datagram whose payload is text that is not JSON. *)
Definition greeting : datagram := mkDatagram 5 (Some "hello") None.

Definition sender : address := ("127.0.0.1", 50000).

End Aggregation.

(** ** Notions used in the further properties *)

(** The keys [handle_input_data] looks at. *)
Definition recognised_keys : list string :=
  ["telemetry_udp_host"; "telemetry_udp_port"; "use_udp_telemetry";
   "input_udp_host"; "input_udp_port"; "use_input_udp"; "reset"].

(** What the host calls once [acMain] has returned. *)
Inductive host_event :=
| Update (o : tick_outcomes)     (* acUpdate(deltaT) *)
| Render (o : tick_outcomes)     (* appGL(deltaT) *)
| Shutdown.                      (* acShutdown() *)

Definition host_step (h : Host) (w : World) (e : host_event) : World :=
  match e with
  | Update o => (acUpdate h o w).1
  | Render o => (appGL h o w).1
  | Shutdown => acShutdown w
  end.

(** The app from its start: [acMain], then the host's calls in order. *)
Definition run_app (h : Host) (fs : gmap string fcontent)
    (c1 c2 : create_outcome) (evs : list host_event) : World :=
  fold_left (host_step h) evs (acMain c1 c2 (initial_world fs)).

(** The socket the operating system should hold under descriptor [s],
    going by the globals: the telemetry socket unbound and blocking, the
    command-in socket bound to [input_addr] and non-blocking. *)
Definition expected_socket (c : Config) (s : fd) : option sockinfo :=
  if decide (telemetry_sock c = Some s) then Some (mkSock None true)
  else if decide (input_sock c = Some s)
       then Some (mkSock (Some (input_addr c)) false)
       else None.

(** The endpoints are in order: the live sockets are the expected ones,
    their descriptors were handed out before, the two handles differ, and
    each address is the pair of its host and port. *)
Record tidy (w : World) : Prop := mkTidy {
  tidy_fresh : ∀ s, is_Some (sockets (os w) !! s) → (s < next_fd (os w))%nat;
  tidy_apart : ∀ s, telemetry_sock (cfg w) = Some s → input_sock (cfg w) ≠ Some s;
  tidy_sockets : ∀ s, sockets (os w) !! s = expected_socket (cfg w) s;
  tidy_telemetry_addr :
    telemetry_addr (cfg w) = (TELEMETRY_UDP_HOST (cfg w), TELEMETRY_UDP_PORT (cfg w));
  tidy_input_addr :
    input_addr (cfg w) = (INPUT_UDP_HOST (cfg w), INPUT_UDP_PORT (cfg w))
}.

(** Lines 383-395: what the drain loop does with one datagram. *)
Definition udp_command (w : World) (dg : datagram_in) : World :=
  match dg_json dg with
  | Some cmd => handle_input_data (dg_outcomes dg) cmd None w
  | None => file_log "Error parsing input UDP JSON from %s: %s" w
  end.

(** A datagram that does not ask to move or to disable the command-in
    endpoint. *)
Definition keeps_input_endpoint (dg : datagram_in) : Prop :=
  ∀ d, dg_json dg = Some (PDict d) →
    Py.dict_has "input_udp_host" d = false ∧
    Py.dict_has "input_udp_port" d = false ∧
    (Py.dict_has "use_input_udp" d = true →
     Py.get_bool "use_input_udp" d = true).

(** The receiver's counts. *)

Module Counting.

Import Receiver.

(** The packets the summary lines of an output account for. *)
Fixpoint counted (out : list printed) : Z :=
  match out with
  | [] => 0
  | Summary n _ _ :: r => n + counted r
  | _ :: r => counted r
  end.

(** A summary line that reports at least one packet. *)
Definition reports_packets (p : printed) : Prop :=
  match p with Summary n _ _ => 1 ≤ n | _ => True end.

(** Between two turns: a packet is stored exactly when the count is not
    zero. *)
Definition settled (st : state) : Prop :=
  0 ≤ pkt_count st ∧ (last_pkt st = None ↔ pkt_count st = 0).

End Counting.

(** * Properties *)


(** ** The sockets stay consistent with the globals *)

(** What [_create_udp_socket] leaves behind. *)
Lemma create_spec o bind host port blocking w :
  (∀ s, is_Some (sockets (os w) !! s) → (s < next_fd (os w))%nat) →
  ∀ r w', _create_udp_socket o bind host port blocking w = (r, w') →
  cfg w' = cfg w ∧ files (os w') = files (os w) ∧
  (next_fd (os w) ≤ next_fd (os w'))%nat ∧
  match r with
  | Some s =>
      s = next_fd (os w) ∧ next_fd (os w') = S s ∧
      sockets (os w') =
        <[s := mkSock (if bind then Some (host, port) else None) blocking]>
          (sockets (os w))
  | None => sockets (os w') = sockets (os w)
  end.
Proof.
  intros Hfresh r w' H.
  assert (Hnone : sockets (os w) !! next_fd (os w) = None).
  { destruct (sockets (os w) !! next_fd (os w)) eqn:E; [|done].
    specialize (Hfresh (next_fd (os w))). rewrite E in Hfresh.
    specialize (Hfresh (mk_is_Some _ _ eq_refl)). lia. }
  unfold _create_udp_socket in H.
  destruct o, bind; simpl in H;
    repeat match type of H with
           | context [if ?b then _ else _] => destruct b eqn:?
           end;
    simpl in H; injection H as <- <-; simpl;
    repeat split; try lia; try reflexivity;
    rewrite ?insert_insert_eq, ?alter_insert_eq, ?delete_insert_eq;
    try reflexivity; try (apply delete_id; done); try (by rewrite delete_id).
Qed.

Section Consistency.

Implicit Types w : World.







End Consistency.

Section Preservation.

Implicit Types (w : World) (d : pydict) (o : hid_outcomes).






(** Host commands and file writes leave the sockets alone. *)
Lemma call_sendcmd_frame ho code w :
  cfg (call_sendcmd ho code w) = cfg w ∧
  sockets (os (call_sendcmd ho code w)) = sockets (os w) ∧
  next_fd (os (call_sendcmd ho code w)) = next_fd (os w) ∧
  files (os (call_sendcmd ho code w)) = files (os w).
Proof. by destruct ho. Qed.

Lemma write_via_tmp_frame wo path doc w :
  cfg (write_via_tmp wo path doc w).1 = cfg w ∧
  sockets (os (write_via_tmp wo path doc w).1) = sockets (os w) ∧
  next_fd (os (write_via_tmp wo path doc w).1) = next_fd (os w).
Proof.
  unfold write_via_tmp, write_tmp.
  destruct (o_write wo), (o_replace wo), (o_rename wo); done.
Qed.

Lemma consume_reset_frame o d path w :
  cfg (consume_reset o d path w) = cfg w ∧
  sockets (os (consume_reset o d path w)) = sockets (os w) ∧
  next_fd (os (consume_reset o d path w)) = next_fd (os w).
Proof.
  unfold consume_reset. destruct (Py.get_is_True _ d); [|done].
  pose proof (call_sendcmd_frame (o_cmd68 o) 68 w) as (A1 & A2 & A3 & _).
  pose proof (call_sendcmd_frame (o_cmd69 o) 69 (call_sendcmd (o_cmd68 o) 68 w))
    as (B1 & B2 & B3 & _).
  destruct (path_given path) as [p|].
  - match goal with |- context [write_via_tmp ?a ?b ?c ?x] =>
      pose proof (write_via_tmp_frame a b c x) as (W1 & W2 & W3);
      destruct (write_via_tmp a b c x) as [w2 [|]] end;
      simpl in *; rewrite W1, W2, W3, B1, B2, B3, A1, A2, A3; done.
  - rewrite B1, B2, B3, A1, A2, A3; done.
Qed.






End Preservation.

Section Grows.

Implicit Types (w : World) (d : pydict) (o : hid_outcomes)
  (ks : list event_kind).

Lemma grows_same ks w w' : trace (os w') = trace (os w) → grows ks w w'.
Proof. intros H. exists []. by rewrite app_nil_r. Qed.

Lemma grows_refl ks w : grows ks w w.
Proof. by apply grows_same. Qed.

Lemma grows_trans ks w1 w2 w3 : grows ks w1 w2 → grows ks w2 w3 → grows ks w1 w3.
Proof.
  intros (e1 & H1 & F1) (e2 & H2 & F2). exists (e1 ++ e2). split.
  - by rewrite H2, H1, app_assoc.
  - by apply Forall_app.
Qed.

Lemma grows_emit ks e w w' : kind e ∈ ks → grows ks w w' → grows ks w (emit e w').
Proof.
  intros Hk (evs & H & F). exists (evs ++ [e]). split.
  - simpl. by rewrite H, app_assoc.
  - apply Forall_app. split; [done|]. by constructor.
Qed.

Lemma grows_weaken ks ks' w w' : ks ⊆ ks' → grows ks w w' → grows ks' w w'.
Proof.
  intros Hsub (evs & H & F). exists evs. split; [done|].
  eapply Forall_impl; [exact F|]. intros e He. by apply Hsub.
Qed.

Local Ltac in_kinds := solve [repeat constructor].


Local Ltac emits :=
  repeat (apply grows_emit; [in_kinds|]); try (apply grows_same; done).

Lemma create_grows c (bind : bool) host port blocking w :
  grows (if bind then [LogCall; SocketCall; BindCall] else [LogCall; SocketCall])
    w (_create_udp_socket c bind host port blocking w).2.
Proof.
  unfold _create_udp_socket.
  destruct c, bind; simpl; repeat case_match; simpl; unfold file_log; emits.
Qed.

Lemma retarget_telemetry_grows d w : grows [LogCall] w (retarget_telemetry d w).
Proof.
  unfold retarget_telemetry. repeat case_match; unfold file_log; emits.
Qed.

Lemma switch_telemetry_grows o d w :
  grows [LogCall; SocketCall] w (switch_telemetry o d w).
Proof.
  unfold switch_telemetry. repeat case_match; try apply grows_refl.
  - destruct (telemetry_sock (cfg w)); simpl; unfold file_log; emits.
  - apply grows_emit; [in_kinds|].
    match goal with H : _create_udp_socket ?c ?b ?h ?p ?k ?x = _ |- _ =>
      pose proof (create_grows c b h p k x) as E; rewrite H in E;
      simpl in E end.
    destruct E as (evs & E & F). by exists evs.
Qed.

Lemma rebind_input_grows o d w :
  grows [LogCall; SocketCall; BindCall] w (rebind_input o d w).
Proof.
  unfold rebind_input. destruct (_ || _); [|apply grows_refl].
  destruct (Py.int _) as [p|]; [|unfold file_log; emits].
  set (w2 := match input_sock _ with Some s => _ | None => _ end).
  assert (G2 : grows [LogCall; SocketCall; BindCall] w w2).
  { subst w2. destruct (input_sock _); simpl; emits. }
  match goal with |- context [_create_udp_socket ?c ?b ?h ?q ?k ?x] =>
    pose proof (create_grows c b h q k x) as E; simpl in E;
    destruct (_create_udp_socket c b h q k x) as [r w3] end.
  unfold file_log. apply grows_emit; [in_kinds|].
  eapply grows_trans; [exact G2|].
  destruct E as (evs & E & F). by exists evs.
Qed.

Lemma switch_input_grows o d w :
  grows [LogCall; SocketCall; BindCall] w (switch_input o d w).
Proof.
  unfold switch_input. repeat case_match; try apply grows_refl.
  - destruct (input_sock (cfg w)); simpl; unfold file_log; emits.
  - apply grows_emit; [in_kinds|].
    match goal with H : _create_udp_socket ?c ?b ?h ?p ?k ?x = _ |- _ =>
      pose proof (create_grows c b h p k x) as E; rewrite H in E;
      simpl in E end.
    destruct E as (evs & E & F). by exists evs.
Qed.

Lemma call_sendcmd_grows ho code w :
  grows [LogCall; HostCall] w (call_sendcmd ho code w).
Proof. destruct ho; simpl; unfold file_log; emits. Qed.



End Grows.

(** ** The command processor *)

Section WriteViaTmp.

Lemma write_via_tmp_trace wo path doc w :
  trace (os (write_via_tmp wo path doc w).1)
  = trace (os w) ++ atomic_write_calls wo path doc.
Proof.
  unfold write_via_tmp, write_tmp, atomic_write_calls.
  destruct (o_write wo), (o_replace wo), (o_rename wo); simpl;
    by rewrite <- ?app_assoc.
Qed.

Lemma write_via_tmp_ok wo path doc w :
  (write_via_tmp wo path doc w).2 = write_succeeds wo.
Proof.
  unfold write_via_tmp, write_succeeds.
  by destruct (o_write wo), (o_replace wo), (o_rename wo).
Qed.

Lemma write_via_tmp_file wo path doc w :
  write_succeeds wo = true →
  files (os (write_via_tmp wo path doc w).1) !! path = Some (Json doc).
Proof.
  unfold write_via_tmp, write_succeeds, write_tmp, move_file.
  destruct (o_write wo); [|done..].
  destruct (o_replace wo), (o_rename wo); try done; intros _; simpl;
    rewrite lookup_insert_eq; by rewrite lookup_insert_eq.
Qed.

End WriteViaTmp.

Section Dict.

Lemma dict_get_has k d v : Py.dict_get k d = Some v → Py.dict_has k d = true.
Proof.
  induction d as [|[k' v'] d IH]; simpl; [done|].
  destruct (String.eqb k k'); auto.
Qed.

Lemma dict_set_get_eq k v d : Py.dict_get k (Py.dict_set k v d) = Some v.
Proof.
  induction d as [|[k' v'] d IH]; simpl.
  - by rewrite String.eqb_refl.
  - destruct (String.eqb k k') eqn:E; simpl; by rewrite E.
Qed.

Lemma dict_set_get_ne k k0 v d :
  k0 ≠ k → Py.dict_get k0 (Py.dict_set k v d) = Py.dict_get k0 d.
Proof.
  intros Hne. induction d as [|[k' v'] d IH]; simpl.
  - destruct (String.eqb k0 k) eqn:E; [|done].
    apply String.eqb_eq in E. done.
  - destruct (String.eqb k k') eqn:E; simpl.
    + apply String.eqb_eq in E as <-.
      destruct (String.eqb k0 k) eqn:E0; [|done].
      apply String.eqb_eq in E0. done.
    + by rewrite IH.
Qed.

Lemma dict_set_keys k v d :
  Py.dict_has k d = true → map fst (Py.dict_set k v d) = map fst d.
Proof.
  induction d as [|[k' v'] d IH]; simpl; [done|].
  destruct (String.eqb k k') eqn:E; simpl; [done|].
  intros H. by rewrite IH.
Qed.

Lemma get_is_True_get k d :
  Py.get_is_True k d = true → Py.dict_get k d = Some (PBool true).
Proof.
  unfold Py.get_is_True. destruct (Py.dict_get k d) as [[| [|] | | | | |]|]; done.
Qed.


End Dict.

Section Frames.

Implicit Types (w : World) (d : pydict) (o : hid_outcomes).

Lemma create_frame c bind host port blocking w :
  cfg (_create_udp_socket c bind host port blocking w).2 = cfg w ∧
  files (os (_create_udp_socket c bind host port blocking w).2) = files (os w).
Proof.
  unfold _create_udp_socket. destruct c, bind; simpl; repeat case_match; done.
Qed.

(** [_create_udp_socket(bind=True, ...)] returns [None] exactly when
    [creation_fails] says so. *)
Lemma create_bound_result c host port blocking w :
  (_create_udp_socket c true host port blocking w).1
  = if creation_fails c host port then None else Some (next_fd (os w)).
Proof.
  unfold _create_udp_socket, creation_fails, bind_raises.
  destruct c; simpl; try done; by destruct (address_ok host port).
Qed.

Lemma switch_telemetry_input_frame o d w :
  INPUT_UDP_HOST (cfg (switch_telemetry o d w)) = INPUT_UDP_HOST (cfg w) ∧
  INPUT_UDP_PORT (cfg (switch_telemetry o d w)) = INPUT_UDP_PORT (cfg w) ∧
  input_sock (cfg (switch_telemetry o d w)) = input_sock (cfg w) ∧
  input_addr (cfg (switch_telemetry o d w)) = input_addr (cfg w).
Proof.
  unfold switch_telemetry. repeat case_match; try done.
  - by destruct (telemetry_sock (cfg w)).
  - match goal with H : _create_udp_socket ?c ?b ?h ?p ?k ?x = _ |- _ =>
      pose proof (create_frame c b h p k x) as [E _]; rewrite H in E end.
    simpl in *. by rewrite E.
Qed.

Lemma retarget_telemetry_input_frame d w :
  INPUT_UDP_HOST (cfg (retarget_telemetry d w)) = INPUT_UDP_HOST (cfg w) ∧
  INPUT_UDP_PORT (cfg (retarget_telemetry d w)) = INPUT_UDP_PORT (cfg w) ∧
  input_sock (cfg (retarget_telemetry d w)) = input_sock (cfg w) ∧
  input_addr (cfg (retarget_telemetry d w)) = input_addr (cfg w).
Proof. unfold retarget_telemetry. repeat case_match; done. Qed.


(** A message that asks for nothing about the command-in endpoint. *)
Lemma switch_input_idle o d w :
  (Py.dict_has "use_input_udp" d = true →
   Py.get_bool "use_input_udp" d = live (input_sock (cfg w))) →
  switch_input o d w = w.
Proof.
  intros H. unfold switch_input.
  destruct (Py.dict_has _ d); [|done]. rewrite (H eq_refl).
  by destruct (live _).
Qed.


Lemma consume_reset_idle o d path w :
  Py.get_is_True "reset" d = false → consume_reset o d path w = w.
Proof. intros H. unfold consume_reset. by rewrite H. Qed.

End Frames.











Section HostCalls.

Lemma host_calls_app a b : host_calls (a ++ b) = host_calls a ++ host_calls b.
Proof.
  induction a as [|e a IH]; simpl; [done|]. destruct e; simpl; by rewrite ?IH.
Qed.

Lemma host_calls_other (ks : list event_kind) evs :
  HostCall ∉ ks → Forall (fun e => kind e ∈ ks) evs → host_calls evs = [].
Proof.
  intros Hno. induction 1 as [|e evs He _ IH]; simpl; [done|].
  destruct e; simpl in *; done.
Qed.

Lemma call_sendcmd_trace ho code w :
  ∃ evs, trace (os (call_sendcmd ho code w)) = trace (os w) ++ evs ∧
         host_calls evs = (if callable ho then [code] else []) ∧
         (ho = HostRaises → In (EvLog "call_sendcmd failed: %s") evs).
Proof.
  destruct ho; simpl.
  - exists []. by rewrite app_nil_r.
  - eexists [_]. done.
  - eexists [_; _]. rewrite <- app_assoc. repeat split; simpl; auto.
Qed.

(** The first four blocks make no host call. *)
Lemma transport_blocks_grow o d w :
  grows [LogCall; SocketCall; BindCall] w
    (switch_input o d (rebind_input o d
       (switch_telemetry o d (retarget_telemetry d w)))).
Proof.
  eapply grows_trans; [|apply switch_input_grows].
  eapply grows_trans; [|apply rebind_input_grows].
  apply (grows_trans _ _ (retarget_telemetry d w)).
  - eapply grows_weaken; [|apply retarget_telemetry_grows].
    intros k Hk. repeat (apply elem_of_cons in Hk as [-> | Hk]);
      try (by repeat constructor); by apply elem_of_nil in Hk.
  - eapply grows_weaken; [|apply switch_telemetry_grows].
    intros k Hk. repeat (apply elem_of_cons in Hk as [-> | Hk]);
      try (by repeat constructor); by apply elem_of_nil in Hk.
Qed.

(** Where a consumed [reset] leaves the backing file. *)
Lemma reset_file_written o d path p w :
  Py.get_is_True "reset" d = true →
  path_given path = Some p →
  write_succeeds (o_input_file o) = true →
  files (os (handle_input_data o (PDict d) path w)) !! p
  = Some (Json (PDict (Py.dict_set "reset" (PBool false) d))).
Proof.
  intros Hreset Hpath Hs. simpl. unfold consume_reset. rewrite Hreset, Hpath.
  match goal with |- context [write_via_tmp ?a ?b ?c ?x] =>
    pose proof (write_via_tmp_ok a b c x) as K;
    pose proof (write_via_tmp_file a b c x Hs) as Fl;
    destruct (write_via_tmp a b c x) as [w3 ok] end.
  simpl in *. rewrite Hs in K. by subst ok.
Qed.

(** The two host calls of a consumed [reset], and no other. *)
Lemma reset_host_calls o d path w :
  Py.get_is_True "reset" d = true →
  callable (o_cmd68 o) = true →
  callable (o_cmd69 o) = true →
  host_calls (trace (os (handle_input_data o (PDict d) path w)))
  = host_calls (trace (os w)) ++ [68; 69].
Proof.
  intros Hreset H68 H69. simpl. set (w0 := switch_input o d _).
  destruct (transport_blocks_grow o d w) as (e0 & E0 & F0). fold w0 in E0.
  assert (N0 : host_calls e0 = []).
  { eapply host_calls_other; [|exact F0].
    intros Hin. repeat (apply elem_of_cons in Hin as [Hin|Hin]; [done|]).
    by apply elem_of_nil in Hin. }
  unfold consume_reset. rewrite Hreset.
  destruct (call_sendcmd_trace (o_cmd68 o) 68 w0) as (e1 & E1 & N1 & _).
  set (w1 := call_sendcmd (o_cmd68 o) 68 w0) in *.
  destruct (call_sendcmd_trace (o_cmd69 o) 69 w1) as (e2 & E2 & N2 & _).
  set (w2 := call_sendcmd (o_cmd69 o) 69 w1) in *.
  rewrite H68 in N1. rewrite H69 in N2.
  assert (Hpre : host_calls (trace (os w2)) = host_calls (trace (os w)) ++ [68; 69]).
  { rewrite E2, E1, E0, !host_calls_app, N0, N1, N2, app_nil_r.
    by rewrite <- app_assoc. }
  destruct (path_given path) as [p|]; [|done].
  match goal with |- context [write_via_tmp ?a ?b ?c ?x] =>
    pose proof (write_via_tmp_trace a b c x) as T3;
    destruct (write_via_tmp a b c x) as [w3 ok] end.
  cbn [fst snd] in T3.
  assert (Hw : host_calls (atomic_write_calls (o_input_file o) p
                             (PDict (Py.dict_set "reset" (PBool false) d))) = []).
  { unfold atomic_write_calls.
    by destruct (o_write (o_input_file o)), (o_replace (o_input_file o)). }
  destruct ok; simpl; rewrite ?host_calls_app, T3, host_calls_app, Hpre, Hw;
    simpl; by rewrite ?app_nil_r.
Qed.

End HostCalls.



(** C9.  The document written back when [reset] is consumed is the
    message that was read with the value of [reset] replaced: the same keys
    in the same order, [reset] false, every other key with the value it
    had.  That document is what the write call is given, and what the
    backing file holds once the write has succeeded. *)
Theorem C9_rewrite_keeps_other_keys
    (o : hid_outcomes) (d : pydict) (path : option string) (p : string)
    (w : World) :
  Py.get_is_True "reset" d = true →
  path_given path = Some p →
  let w' := handle_input_data o (PDict d) path w in
  ∃ d',
    map fst d' = map fst d ∧
    Py.dict_get "reset" d' = Some (PBool false) ∧
    (∀ k, k ≠ "reset" → Py.dict_get k d' = Py.dict_get k d) ∧
    In (EvWrite (tmp_of p) (PDict d') (o_write (o_input_file o)))
       (drop (length (trace (os w))) (trace (os w'))) ∧
    (write_succeeds (o_input_file o) = true →
     files (os w') !! p = Some (Json (PDict d'))).
Proof.
  intros Hreset Hpath w'. exists (Py.dict_set "reset" (PBool false) d).
  split; [|split; [|split; [|split]]].
  - apply dict_set_keys. eapply dict_get_has. by apply get_is_True_get.
  - apply dict_set_get_eq.
  - intros k Hk. by apply dict_set_get_ne.
  - subst w'. simpl. set (w0 := switch_input o d _).
    destruct (transport_blocks_grow o d w) as (e0 & E0 & F0). fold w0 in E0.
    unfold consume_reset. rewrite Hreset, Hpath.
    set (w2 := call_sendcmd (o_cmd69 o) 69 _).
    assert (G : grows [LogCall; HostCall] w0 w2).
    { eapply grows_trans; apply call_sendcmd_grows. }
    destruct G as (e1 & E1 & _).
    match goal with |- context [write_via_tmp ?a ?b ?c ?x] =>
      pose proof (write_via_tmp_trace a b c x) as T3;
      destruct (write_via_tmp a b c x) as [w3 ok] end.
    simpl in T3.
    assert (In (EvWrite (tmp_of p) (PDict (Py.dict_set "reset" (PBool false) d))
                  (o_write (o_input_file o)))
              (atomic_write_calls (o_input_file o) p
                 (PDict (Py.dict_set "reset" (PBool false) d)))) by (by left).
    destruct ok; simpl; rewrite T3, E1, E0, <- !app_assoc, drop_app_length;
      apply in_or_app; right; apply in_or_app; right;
      first [exact H | apply in_or_app; by left].
  - intros Hs.
    by apply reset_file_written.
Qed.

Lemma C9_rewrite_keeps_other_keys_witness :
  let d := [("note", PStr "keep"); ("reset", PBool true)] in
  let w' := handle_input_data all_well (PDict d) (Some "AC_RL_input.json") started in
  ∃ d',
    map fst d' = ["note"; "reset"] ∧
    Py.dict_get "reset" d' = Some (PBool false) ∧
    (∀ k, k ≠ "reset" → Py.dict_get k d' = Py.dict_get k d) ∧
    In (EvWrite (tmp_of "AC_RL_input.json") (PDict d') WriteOk)
       (drop (length (trace (os started))) (trace (os w'))) ∧
    (write_succeeds (o_input_file all_well) = true →
     files (os w') !! "AC_RL_input.json" = Some (Json (PDict d'))).
Proof.
  exact (C9_rewrite_keeps_other_keys all_well
           [("note", PStr "keep"); ("reset", PBool true)]
           (Some "AC_RL_input.json") "AC_RL_input.json" started
           eq_refl eq_refl).
Defined.

(** ** The command file as the source of a message *)

Section CommandFile.

Implicit Types (w : World) (d : pydict) (h : Host) (i : intake).

Lemma path_join_not_empty dir file : String.eqb (path_join dir file) "" = false.
Proof. unfold path_join. by destruct dir. Qed.

Lemma input_file_path_given h w p :
  input_file_path h w = Some p → path_given (Some p) = Some p.
Proof.
  unfold input_file_path, path_given. intros H.
  repeat case_match; simplify_eq; try done;
    match goal with E : String.eqb (path_join _ _) "" = true |- _ =>
      by rewrite path_join_not_empty in E end.
Qed.

(** A tick whose command file holds the dict [d], and on which no datagram
    arrives, processes [d] with the path of the file. *)
Lemma check_input_file_reads h i w p d :
  input_file_path h w = Some p →
  files (os w) !! p = Some (Json (PDict d)) →
  in_read_ok i = true →
  in_rx i = [] →
  check_input_file h i w
  = handle_input_data (in_file_outcomes i) (PDict d) (Some p) w.
Proof.
  intros Hp Hf Hr Hrx. unfold check_input_file.
  rewrite Hp, Hr, Hf, Hrx. cbn [is_dict].
  set (w2 := handle_input_data _ _ _ w).
  destruct (input_sock (cfg w2)) eqn:E; simpl; by rewrite ?E.
Qed.

(** A message whose [reset] is not [True] makes no host call: once the
    file has been rewritten, reading it again resets nothing. *)
Lemma no_reset_no_host_call o d path w :
  Py.get_is_True "reset" d = false →
  host_calls (trace (os (handle_input_data o (PDict d) path w)))
  = host_calls (trace (os w)).
Proof.
  intros H. simpl. rewrite consume_reset_idle by done.
  destruct (transport_blocks_grow o d w) as (e0 & E0 & F0).
  rewrite E0, host_calls_app.
  rewrite (host_calls_other [LogCall; SocketCall; BindCall] e0);
    [by rewrite app_nil_r | | done].
  intros Hin. repeat (apply elem_of_cons in Hin as [Hin|Hin]; [done|]).
  by apply elem_of_nil in Hin.
Qed.

(** The tick that reads [reset] true from its command
    file calls the host with 68 and 69 and, the write succeeding, leaves
    the file with [reset] false. *)
Lemma reset_read_from_file_is_consumed h i w p d :
  input_file_path h w = Some p →
  files (os w) !! p = Some (Json (PDict d)) →
  in_read_ok i = true →
  in_rx i = [] →
  Py.get_is_True "reset" d = true →
  callable (o_cmd68 (in_file_outcomes i)) = true →
  callable (o_cmd69 (in_file_outcomes i)) = true →
  write_succeeds (o_input_file (in_file_outcomes i)) = true →
  let w' := check_input_file h i w in
  host_calls (trace (os w')) = host_calls (trace (os w)) ++ [68; 69] ∧
  files (os w') !! p
  = Some (Json (PDict (Py.dict_set "reset" (PBool false) d))).
Proof.
  intros Hp Hf Hr Hrx Hreset H68 H69 Hw w'. subst w'.
  rewrite (check_input_file_reads h i w p d Hp Hf Hr Hrx).
  pose proof (input_file_path_given h w p Hp) as Hg. split.
  - by apply reset_host_calls.
  - by apply reset_file_written.
Qed.

End CommandFile.

(** ** The tick *)

Section Sampling.

Implicit Types (w : World) (h : Host) (call : provider).

Lemma same_state_refl w : same_state w w.
Proof. done. Qed.

Lemma same_state_trans w1 w2 w3 :
  same_state w1 w2 → same_state w2 w3 → same_state w1 w3.
Proof.
  intros (A1 & A2 & A3 & A4) (B1 & B2 & B3 & B4).
  repeat split; congruence.
Qed.

Lemma same_state_emit e w w' : same_state w w' → same_state w (emit e w').
Proof. intros (A1 & A2 & A3 & A4). repeat split; done. Qed.

Lemma safe_call_spec h call m f w :
  (safe_call h call m (f_name f) (f_args f) PNone w).1
  = sampled_value h call m f ∧
  grows [LogCall] w (safe_call h call m (f_name f) (f_args f) PNone w).2 ∧
  same_state w (safe_call h call m (f_name f) (f_args f) PNone w).2.
Proof.
  unfold safe_call, sampled_value.
  destruct (loaded h m), (has_fn h m (f_name f)); simpl;
    try (repeat split; first [done | apply grows_refl]).
  destruct (call m (f_name f) (f_args f)); simpl.
  - repeat split; first [done | apply grows_refl].
  - split; [done|]. split; [|done].
    apply grows_emit; [by constructor | apply grows_refl].
Qed.

Lemma sample_fields_spec h call m fs w :
  (sample_fields h call m fs w).1 = group_of h call m fs ∧
  grows [LogCall] w (sample_fields h call m fs w).2 ∧
  same_state w (sample_fields h call m fs w).2.
Proof.
  revert w. induction fs as [|f fs IH]; intros w; simpl.
  - repeat split; first [done | apply grows_refl].
  - destruct (safe_call_spec h call m f w) as (V & G & S).
    destruct (safe_call h call m (f_name f) (f_args f) PNone w) as [v w1].
    destruct (IH w1) as (V' & G' & S').
    destruct (sample_fields h call m fs w1) as [d w2]. simpl in *.
    split; [by subst|]. split.
    + by eapply grows_trans.
    + by eapply same_state_trans.
Qed.

Lemma sample_tyres_spec h call ts w :
  (sample_tyres h call ts w).1 = map (tyre_of h call) ts ∧
  grows [LogCall] w (sample_tyres h call ts w).2 ∧
  same_state w (sample_tyres h call ts w).2.
Proof.
  revert w. induction ts as [|t ts IH]; intros w.
  - repeat split; first [done | apply grows_refl].
  - cbn [sample_tyres].
    destruct (sample_fields_spec h call tyre_info (tyre_fields t) w)
      as (V & G & S).
    destruct (sample_fields h call tyre_info (tyre_fields t) w) as [d w1].
    destruct (IH w1) as (V' & G' & S').
    destruct (sample_tyres h call ts w1) as [l w2]. cbn [fst snd map] in *.
    split; [unfold tyre_of; by subst|]. split.
    + by eapply grows_trans.
    + by eapply same_state_trans.
Qed.

Lemma build_payload_spec h call now w :
  (build_payload h call now w).1 = snapshot_of h call now ∧
  grows [LogCall] w (build_payload h call now w).2 ∧
  same_state w (build_payload h call now w).2.
Proof.
  unfold build_payload, snapshot_of.
  destruct (sample_tyres_spec h call [0; 1; 2; 3] w) as (V1 & G1 & S1).
  destruct (sample_tyres h call [0; 1; 2; 3] w) as [tyres w1].
  destruct (sample_fields_spec h call session_info session_fields w1)
    as (V2 & G2 & S2).
  destruct (sample_fields h call session_info session_fields w1) as [session w2].
  destruct (sample_fields_spec h call car_info car_fields w2) as (V3 & G3 & S3).
  destruct (sample_fields h call car_info car_fields w2) as [car w3].
  destruct (sample_fields_spec h call input_info inputs_fields w3)
    as (V4 & G4 & S4).
  destruct (sample_fields h call input_info inputs_fields w3) as [inputs w4].
  destruct (sample_fields_spec h call lap_info lap_fields w4) as (V5 & G5 & S5).
  destruct (sample_fields h call lap_info lap_fields w4) as [lap w5].
  destruct (sample_fields_spec h call car_stats stats_fields w5)
    as (V6 & G6 & S6).
  destruct (sample_fields h call car_stats stats_fields w5) as [stats w6].
  simpl in *. subst. split; [done|]. split.
  - repeat (eapply grows_trans; [eassumption|]). apply grows_refl.
  - repeat (eapply same_state_trans; [eassumption|]). apply same_state_refl.
Qed.

Lemma update_labels_spec h call settext ts w :
  (update_labels h call settext ts w).2 = labels_ok h call settext ts ∧
  grows [UiCall] w (update_labels h call settext ts w).1 ∧
  same_state w (update_labels h call settext ts w).1.
Proof.
  revert w. induction ts as [|t ts IH]; intros w.
  - repeat split; first [done | apply grows_refl].
  - cbn [update_labels]. unfold labels_ok. cbn [forallb].
    fold (labels_ok h call settext ts).
    destruct (forallb (fun c => formats_as_float (direct_call h call c))
                (label_calls t)); cbn [andb fst snd];
      [|repeat split; first [done | apply grows_refl]].
    destruct (settext t); cbn [andb fst snd];
      [|repeat split; first [done | apply grows_refl]].
    destruct (IH (emit (EvSetText (Z.to_nat t)) w)) as (V & G & S).
    split; [done|]. split.
    + eapply grows_trans; [|exact G].
      apply grows_emit; [by constructor | apply grows_refl].
    + eapply same_state_trans; [|exact S].
      apply same_state_emit, same_state_refl.
Qed.

(** A tick that builds a snapshot builds [snapshot_of], with calls to the
    log and the labels only. *)
Lemma sample_tick_built h o w :
  snapshot_built h o = true →
  (sample_tick h o w).1 = Snapshot (snapshot_of h (t_call o) (t_now o)) ∧
  grows [LogCall; UiCall] w (sample_tick h o w).2 ∧
  same_state w (sample_tick h o w).2.
Proof.
  unfold snapshot_built, sample_tick. intros [Hl Hok]%andb_true_iff.
  rewrite Hl. cbn [negb].
  destruct (update_labels_spec h (t_call o) (t_settext o) [0; 1; 2; 3] w)
    as (V & G & S).
  destruct (update_labels h (t_call o) (t_settext o) [0; 1; 2; 3] w) as [w1 ok].
  cbn [fst snd] in *. rewrite V, Hok.
  destruct (build_payload_spec h (t_call o) (t_now o) w1) as (V' & G' & S').
  destruct (build_payload h (t_call o) (t_now o) w1) as [payload w2].
  cbn [fst snd] in *. subst. split; [done|]. split.
  - eapply grows_trans; (eapply grows_weaken; [|eassumption]);
      intros k Hk; apply elem_of_cons in Hk as [-> | Hk];
      try (by repeat constructor); by apply elem_of_nil in Hk.
  - by eapply same_state_trans.
Qed.

(** Otherwise it delivers nothing. *)
Lemma sample_tick_not_built h o w :
  snapshot_built h o = false →
  (∀ payload, (sample_tick h o w).1 ≠ Snapshot payload) ∧
  grows [LogCall; UiCall] w (sample_tick h o w).2 ∧
  same_state w (sample_tick h o w).2.
Proof.
  unfold snapshot_built, sample_tick. intros Hno.
  destruct (loaded h tyre_info); cbn [negb andb] in *.
  - destruct (update_labels_spec h (t_call o) (t_settext o) [0; 1; 2; 3] w)
      as (V & G & S).
    destruct (update_labels h (t_call o) (t_settext o) [0; 1; 2; 3] w)
      as [w1 ok].
    cbn [fst snd] in *. rewrite V, Hno. cbn [fst snd].
    split; [done|]. split; [|done].
    eapply grows_weaken; [|exact G].
    intros k Hk; apply elem_of_cons in Hk as [-> | Hk];
      try (by repeat constructor); by apply elem_of_nil in Hk.
  - cbn [fst snd]. split; [done|]. split; [|done].
    apply grows_emit; [by constructor | apply grows_refl].
Qed.

Lemma check_input_file_idle h i w :
  no_commands h i w → check_input_file h i w = w.
Proof.
  intros [Hp Hrx]. unfold check_input_file. rewrite Hp, Hrx.
  simpl. destruct (input_sock (cfg w)) eqn:E; simpl; by rewrite ?E.
Qed.

End Sampling.

Section Delivery.

Implicit Types (w : World) (h : Host) (o : tick_outcomes).




Lemma send_udp_spec o payload w :
  (send_udp o payload w).1 = udp_sent o w ∧
  trace (os (send_udp o payload w).2) = trace (os w) ++ send_calls o payload w ∧
  same_state w (send_udp o payload w).2.
Proof.
  unfold send_udp, send_calls, udp_sent.
  destruct (telemetry_sock (cfg w)) as [s|]; simpl.
  - destruct (sendto_ok o s (telemetry_addr (cfg w)) w); simpl;
      repeat split; by rewrite <- ?app_assoc.
  - repeat split. by rewrite app_nil_r.
Qed.

Lemma log_both_spec ok msg w :
  (log_both ok msg w).2 = ok ∧
  grows [LogCall] w (log_both ok msg w).1 ∧
  same_state w (log_both ok msg w).1 ∧
  In (EvAcLog ("[AC_RL] " +:+ msg) ok)
     (drop (length (trace (os w))) (trace (os (log_both ok msg w).1))).
Proof.
  unfold log_both. destruct ok; simpl.
  - split; [done|]. split; [|split; [done|]].
    + repeat (apply grows_emit; [by constructor|]). apply grows_refl.
    + rewrite <- app_assoc, drop_app_length. by left.
  - split; [done|]. split; [|split; [done|]].
    + repeat (apply grows_emit; [by constructor|]). apply grows_refl.
    + rewrite drop_app_length. by left.
Qed.



(** The tick handler on a tick that builds a snapshot. *)
Lemma acUpdate_built h o w :
  snapshot_built h o = true →
  let w0 := check_input_file h (t_intake o) w in
  let w1 := (sample_tick h o w0).2 in
  let payload := snapshot_of h (t_call o) (t_now o) in
  acUpdate h o w
  = let '(w2, ok) := deliver h o payload w1 in
    if ok then (w2, Returned)
    else
      let '(w3, ok') :=
        log_both (t_aclog_payload o) "Error preparing telemetry payload: %s" w2 in
      if ok' then (w3, Returned)
      else
        let '(w4, ok'') :=
          log_both (t_aclog_labels o) "Error updating tyre labels: %s" w3 in
        (w4, if ok'' then Returned else Escaped).
Proof.
  intros Hb w0 w1 payload. unfold acUpdate. fold w0.
  destruct (sample_tick_built h o w0 Hb) as (V & _). subst w1.
  destruct (sample_tick h o w0) as [s w1]. simpl in *. by subst s.
Qed.

(** After the delivery only the log is written to. *)
Lemma acUpdate_after_deliver h o w :
  snapshot_built h o = true →
  let w0 := check_input_file h (t_intake o) w in
  let w1 := (sample_tick h o w0).2 in
  let payload := snapshot_of h (t_call o) (t_now o) in
  let w2 := (deliver h o payload w1).1 in
  let w' := (acUpdate h o w).1 in
  grows [LogCall] w2 w' ∧ same_state w2 w' ∧
  ((deliver h o payload w1).2 || t_aclog_payload o || t_aclog_labels o = true →
   (acUpdate h o w).2 = Returned).
Proof.
  intros Hb w0 w1 payload w2 w'. subst w' w2.
  rewrite (acUpdate_built h o w Hb). fold w0 w1 payload.
  destruct (deliver h o payload w1) as [w2 ok]. simpl.
  destruct ok; simpl; [by split; [apply grows_refl|]|].
  destruct (log_both_spec (t_aclog_payload o)
              "Error preparing telemetry payload: %s" w2) as (A1 & A2 & A3 & _).
  destruct (log_both _ _ w2) as [w3 ok']. simpl in *. subst ok'.
  destruct (t_aclog_payload o); simpl; [done|].
  destruct (log_both_spec (t_aclog_labels o)
              "Error updating tyre labels: %s" w3) as (B1 & B2 & B3 & _).
  destruct (log_both _ _ w3) as [w4 ok'']. simpl in *. subst ok''.
  split; [by eapply grows_trans|]. split; [by eapply same_state_trans|].
  by intros ->.
Qed.

(** The tick handler on a tick that builds no snapshot: it logs, and
    touches neither the sockets nor the files. *)
Lemma acUpdate_not_built h o w :
  snapshot_built h o = false →
  let w0 := check_input_file h (t_intake o) w in
  grows [LogCall; UiCall] w0 (acUpdate h o w).1 ∧
  same_state w0 (acUpdate h o w).1.
Proof.
  intros Hb w0. unfold acUpdate. fold w0.
  destruct (sample_tick_not_built h o w0 Hb) as (V & G & S).
  destruct (sample_tick h o w0) as [[| |payload] w1]; cbn [fst snd] in *.
  - done.
  - destruct (log_both_spec (t_aclog_labels o)
                "Error updating tyre labels: %s" w1) as (_ & G' & S' & _).
    destruct (log_both _ _ w1) as [w2 ok]. cbn [fst snd] in *. split.
    + eapply grows_trans; [exact G|]. eapply grows_weaken; [|exact G'].
      intros k Hk. apply elem_of_cons in Hk as [-> | Hk]; [by constructor|].
      by apply elem_of_nil in Hk.
    + by eapply same_state_trans.
  - by destruct (V payload).
Qed.

End Delivery.




(** The [except] clauses of lines 673-690 call [ac.log] outside any [try]
    (lines 41 and 56 guard the same call): when the fallback write fails
    and [ac.log] raises in each of them, the exception leaves the tick
    handler. *)
Example unguarded_aclog_lets_the_exception_out :
  let o :=
    mkTick (mkIntake true all_well []) ones (fun _ => true) (FFin 0 0) true
      cannot_open false false false in
  (acUpdate full_host o (initial_world ∅)).2 = Escaped.
Proof. vm_compute. reflexivity. Qed.

Section Reading.

Implicit Types (h : Host) (call : provider) (o : tick_outcomes) (w : World).









End Reading.






(** ** The receiver *)

Module AggregationFacts.

Import Receiver Aggregation.




Lemma run_app a b st :
  run (a ++ b) st
  = (if (run a st).2 then run b (run a st).1 else ((run a st).1, false)).
Proof.
  revert st. induction a as [|i a IH]; intros st; [done|].
  cbn [run app]. destruct (iteration i st) as [st1 [|]]; [apply IH | done].
Qed.

(** What a due summary prints and leaves: one summary line, then the
    body for the payload and a reset, or, for a payload that is JSON
    without an ["inputs"] entry, an exception and no reset. *)
Lemma summarise_spec d from t st :
  let r := summarise d from t st in
  ∃ body,
    output r.1 = output st ++ Summary (pkt_count st) (size d) from :: body ∧
    Forall (fun p => is_summary p = false) body ∧
    r.2 = classifiable d ∧
    (classifiable d = true →
     last_print r.1 = t ∧ last_pkt r.1 = None ∧ pkt_count r.1 = 0) ∧
    (classifiable d = false →
     body = [] ∧ last_print r.1 = last_print st ∧
     last_pkt r.1 = last_pkt st ∧ pkt_count r.1 = pkt_count st).
Proof.
  unfold summarise, classifiable.
  destruct (decoded d) as [text|]; [destruct (parsed d) as [v|];
    [destruct (inputs_of v)|]|]; simpl; eexists;
    rewrite <- ?app_assoc; simpl;
    (split; [reflexivity|]); (split; [repeat constructor|]);
    repeat split; try done; try (destruct (printable text); done).
  all: destruct (printable text); repeat constructor.
Qed.





End AggregationFacts.

Section PrintInterval.

Import Receiver Aggregation.




End PrintInterval.

(** * Further properties

    The command processor on the remaining kinds of message, the
    endpoints over whole runs of the app, the intake of commands, the tick
    handler, and the receiver with its [hexdump]. *)

(** ** More on the command processor *)

Ltac not_in_kinds :=
  let H := fresh in
  intros H; repeat (apply elem_of_cons in H as [H|H]; [done|]);
  by apply elem_of_nil in H.

Section MoreFrames.

Implicit Types (w : World) (d : pydict) (o : hid_outcomes).

Lemma dict_has_get_None k d : Py.dict_has k d = false → Py.dict_get k d = None.
Proof.
  induction d as [|[k' v'] d IH]; simpl; [done|].
  destruct (String.eqb k k'); [done | exact IH].
Qed.

Lemma retarget_telemetry_files d w :
  files (os (retarget_telemetry d w)) = files (os w).
Proof. unfold retarget_telemetry. repeat case_match; done. Qed.

Lemma switch_telemetry_files o d w :
  files (os (switch_telemetry o d w)) = files (os w).
Proof.
  unfold switch_telemetry. repeat case_match; try done.
  - by destruct (telemetry_sock (cfg w)).
  - match goal with H : _create_udp_socket ?c ?b ?h ?p ?k ?x = _ |- _ =>
      pose proof (create_frame c b h p k x) as [_ E]; rewrite H in E end.
    done.
Qed.

Lemma rebind_input_files o d w :
  files (os (rebind_input o d w)) = files (os w).
Proof.
  unfold rebind_input. destruct (_ || _); [|done].
  destruct (Py.int _) as [p|]; [|done].
  match goal with |- context [_create_udp_socket ?c ?b ?h ?q ?k ?x] =>
    pose proof (create_frame c b h q k x) as [_ E];
    destruct (_create_udp_socket c b h q k x) as [r w3] end.
  simpl in *. rewrite E. by destruct (input_sock (cfg w)).
Qed.

Lemma switch_input_files o d w :
  files (os (switch_input o d w)) = files (os w).
Proof.
  unfold switch_input. repeat case_match; try done.
  - by destruct (input_sock (cfg w)).
  - match goal with H : _create_udp_socket ?c ?b ?h ?p ?k ?x = _ |- _ =>
      pose proof (create_frame c b h p k x) as [_ E]; rewrite H in E end.
    done.
Qed.

Lemma transport_blocks_files o d w :
  files (os (switch_input o d (rebind_input o d
               (switch_telemetry o d (retarget_telemetry d w)))))
  = files (os w).
Proof.
  by rewrite switch_input_files, rebind_input_files, switch_telemetry_files,
    retarget_telemetry_files.
Qed.

Lemma tmp_of_ne path : tmp_of path ≠ path.
Proof.
  unfold tmp_of. intros H. apply (f_equal String.length) in H.
  revert H. induction path as [|c path IH]; simpl; [done|]. intros [= H]. auto.
Qed.

(** What the write through the temporary sibling leaves in the files: the
    target holds the whole document or what it held before. *)
Lemma write_via_tmp_files wo path doc w :
  let fs := files (os (write_via_tmp wo path doc w).1) in
  fs !! path
  = (if write_succeeds wo then Some (Json doc) else files (os w) !! path) ∧
  (∀ q, q ≠ path → q ≠ tmp_of path → fs !! q = files (os w) !! q) ∧
  (write_succeeds wo = true → fs !! tmp_of path = None).
Proof.
  pose proof (tmp_of_ne path) as Hne.
  unfold write_via_tmp, write_succeeds, write_tmp, move_file.
  destruct (o_write wo), (o_replace wo), (o_rename wo); simpl;
    rewrite ?lookup_insert_eq;
    (split; [|split]);
    try done;
    try (intros q Hq1 Hq2);
    try (intros _);
    rewrite ?lookup_insert_eq;
    repeat first [rewrite lookup_insert_ne by done
                 | rewrite lookup_delete_eq
                 | rewrite lookup_delete_ne by done
                 | rewrite lookup_insert_eq ];
    done.
Qed.

Lemma kinds_exclude (ks : list event_kind) k evs :
  k ∉ ks →
  Forall (fun e => kind e ∈ ks) evs → Forall (fun e => kind e ≠ k) evs.
Proof.
  intros Hk F. eapply Forall_impl; [exact F|]. intros e He E.
  cbv beta in He. by rewrite E in He.
Qed.

Lemma call_sendcmd_files ho code w :
  files (os (call_sendcmd ho code w)) = files (os w).
Proof. by destruct ho. Qed.

End MoreFrames.

(** X5.  A message without any of the seven keys that [handle_input_data]
    looks at, and a message that is not a dict, change nothing and cause
    no call. *)
Theorem unrecognised_message_is_ignored
    (o : hid_outcomes) (cmd : pyval) (path : option string) (w : World) :
  (∀ d, cmd = PDict d →
        Forall (fun k => Py.dict_has k d = false) recognised_keys) →
  handle_input_data o cmd path w = w.
Proof.
  intros H. destruct cmd as [| | | | | |d]; try done.
  specialize (H d eq_refl). unfold recognised_keys in H.
  repeat (apply Forall_cons in H as [? H]). simpl.
  assert (E1 : retarget_telemetry d w = w)
    by (unfold retarget_telemetry; by repeat match goal with
          | E : Py.dict_has _ d = false |- _ => rewrite E; clear E end).
  rewrite E1.
  assert (E2 : switch_telemetry o d w = w)
    by (unfold switch_telemetry; by repeat match goal with
          | E : Py.dict_has _ d = false |- _ => rewrite ?E; clear E end).
  rewrite E2.
  assert (E3 : rebind_input o d w = w)
    by (unfold rebind_input; by repeat match goal with
          | E : Py.dict_has _ d = false |- _ => rewrite ?E; clear E end).
  rewrite E3.
  assert (E4 : switch_input o d w = w)
    by (unfold switch_input; by repeat match goal with
          | E : Py.dict_has _ d = false |- _ => rewrite ?E; clear E end).
  rewrite E4.
  apply consume_reset_idle. unfold Py.get_is_True.
  by rewrite dict_has_get_None.
Qed.

Lemma unrecognised_message_is_ignored_witness :
  handle_input_data all_well (PDict [("throttle", PInt 1)]) None started
  = started ∧
  handle_input_data all_well (PList [PStr "reset"]) None started = started.
Proof.
  split.
  - apply unrecognised_message_is_ignored. intros d [= <-].
    repeat constructor.
  - apply unrecognised_message_is_ignored. intros d [=].
Defined.



(** ** The endpoints over a run of the app *)

Section Tidy.

Implicit Types (w : World) (d : pydict) (o : hid_outcomes).

Lemma tidy_consistent w : tidy w → consistent w.
Proof.
  intros [F A S _ _]. split.
  - done.
  - intros s i Hl Hb. rewrite S in Hl. unfold expected_socket in Hl.
    repeat case_decide; simplify_eq; try done. by destruct Hb.
  - intros s i Hl Hb. rewrite S in Hl. unfold expected_socket in Hl.
    repeat case_decide; simplify_eq; done.
  - intros s Hs. rewrite S. unfold expected_socket.
    repeat case_decide; try done.
    + by destruct (A s).
    + eexists. split; [done|]. by eexists.
  - intros s Hs. rewrite S. unfold expected_socket.
    repeat case_decide; try done. by eexists.
Qed.

Lemma tidy_handle_fresh w s :
  tidy w → telemetry_sock (cfg w) = Some s ∨ input_sock (cfg w) = Some s →
  (s < next_fd (os w))%nat.
Proof.
  intros T H. apply (tidy_fresh w T). rewrite (tidy_sockets w T).
  unfold expected_socket. destruct H; repeat case_decide; done.
Qed.

Lemma tidy_same w w' :
  tidy w →
  sockets (os w') = sockets (os w) →
  (next_fd (os w) ≤ next_fd (os w'))%nat →
  telemetry_sock (cfg w') = telemetry_sock (cfg w) →
  input_sock (cfg w') = input_sock (cfg w) →
  (is_Some (input_sock (cfg w)) → input_addr (cfg w') = input_addr (cfg w)) →
  telemetry_addr (cfg w')
  = (TELEMETRY_UDP_HOST (cfg w'), TELEMETRY_UDP_PORT (cfg w')) →
  input_addr (cfg w') = (INPUT_UDP_HOST (cfg w'), INPUT_UDP_PORT (cfg w')) →
  tidy w'.
Proof.
  intros [F A S _ _] Hs Hn Ht Hi Ha St Si. split; try done.
  - intros s. rewrite Hs. intros H%F. lia.
  - intros s. rewrite Ht, Hi. apply A.
  - intros s. rewrite Hs, S. unfold expected_socket. rewrite Ht, Hi.
    repeat case_decide; try done. rewrite Ha; [done|]. by eexists.
Qed.

Lemma tidy_close_telemetry w w' s :
  tidy w →
  telemetry_sock (cfg w) = Some s →
  sockets (os w') = delete s (sockets (os w)) →
  (next_fd (os w) ≤ next_fd (os w'))%nat →
  telemetry_sock (cfg w') = None →
  input_sock (cfg w') = input_sock (cfg w) →
  input_addr (cfg w') = input_addr (cfg w) →
  telemetry_addr (cfg w')
  = (TELEMETRY_UDP_HOST (cfg w'), TELEMETRY_UDP_PORT (cfg w')) →
  input_addr (cfg w') = (INPUT_UDP_HOST (cfg w'), INPUT_UDP_PORT (cfg w')) →
  tidy w'.
Proof.
  intros [F A S _ _] Hts Hs Hn Ht Hi Ha St Si. split; try done.
  - intros k. rewrite Hs. intros [_ H%F]%lookup_delete_is_Some. lia.
  - intros k. by rewrite Ht.
  - intros k. rewrite Hs, lookup_delete, S. unfold expected_socket.
    rewrite Ht, Hi, Ha, Hts. specialize (A s Hts).
    repeat case_decide; simplify_eq; done.
Qed.

Lemma tidy_close_input w w' s :
  tidy w →
  input_sock (cfg w) = Some s →
  sockets (os w') = delete s (sockets (os w)) →
  (next_fd (os w) ≤ next_fd (os w'))%nat →
  telemetry_sock (cfg w') = telemetry_sock (cfg w) →
  input_sock (cfg w') = None →
  telemetry_addr (cfg w')
  = (TELEMETRY_UDP_HOST (cfg w'), TELEMETRY_UDP_PORT (cfg w')) →
  input_addr (cfg w') = (INPUT_UDP_HOST (cfg w'), INPUT_UDP_PORT (cfg w')) →
  tidy w'.
Proof.
  intros [F A S _ _] His Hs Hn Ht Hi St Si. split; try done.
  - intros k. rewrite Hs. intros [_ H%F]%lookup_delete_is_Some. lia.
  - intros k. by rewrite Hi.
  - intros k. rewrite Hs, lookup_delete, S. unfold expected_socket.
    rewrite Ht, Hi, His.
    repeat case_decide; simplify_eq; try done. by destruct (A k).
Qed.

Lemma tidy_open_telemetry w w' :
  tidy w →
  telemetry_sock (cfg w) = None →
  sockets (os w') = <[next_fd (os w) := mkSock None true]> (sockets (os w)) →
  next_fd (os w') = S (next_fd (os w)) →
  telemetry_sock (cfg w') = Some (next_fd (os w)) →
  input_sock (cfg w') = input_sock (cfg w) →
  input_addr (cfg w') = input_addr (cfg w) →
  telemetry_addr (cfg w')
  = (TELEMETRY_UDP_HOST (cfg w'), TELEMETRY_UDP_PORT (cfg w')) →
  input_addr (cfg w') = (INPUT_UDP_HOST (cfg w'), INPUT_UDP_PORT (cfg w')) →
  tidy w'.
Proof.
  intros T Hts Hs Hn Ht Hi Ha St Si.
  pose proof (fun s => tidy_handle_fresh w s T) as Hf.
  destruct T as [F A S _ _]. split; try done.
  - intros k. rewrite Hs, Hn.
    intros [<- | [_ H%F]]%lookup_insert_is_Some; lia.
  - intros k. rewrite Ht, Hi. intros [= <-] Hk.
    specialize (Hf (next_fd (os w)) (or_intror Hk)). lia.
  - intros k. rewrite Hs, lookup_insert, S. unfold expected_socket.
    rewrite Ht, Hi, Ha, Hts.
    repeat case_decide; simplify_eq; done.
Qed.

Lemma tidy_open_input w w' a :
  tidy w →
  input_sock (cfg w) = None →
  sockets (os w') = <[next_fd (os w) := mkSock (Some a) false]> (sockets (os w)) →
  next_fd (os w') = S (next_fd (os w)) →
  telemetry_sock (cfg w') = telemetry_sock (cfg w) →
  input_sock (cfg w') = Some (next_fd (os w)) →
  input_addr (cfg w') = a →
  telemetry_addr (cfg w')
  = (TELEMETRY_UDP_HOST (cfg w'), TELEMETRY_UDP_PORT (cfg w')) →
  input_addr (cfg w') = (INPUT_UDP_HOST (cfg w'), INPUT_UDP_PORT (cfg w')) →
  tidy w'.
Proof.
  intros T His Hs Hn Ht Hi Ha St Si.
  pose proof (fun s => tidy_handle_fresh w s T) as Hf.
  destruct T as [F A S _ _]. split; try done.
  - intros k. rewrite Hs, Hn.
    intros [<- | [_ H%F]]%lookup_insert_is_Some; lia.
  - intros k. rewrite Ht, Hi. intros Hk [= <-].
    specialize (Hf (next_fd (os w)) (or_introl Hk)). lia.
  - intros k. rewrite Hs, lookup_insert, S. unfold expected_socket.
    rewrite Ht, Hi, Ha, His.
    repeat case_decide; simplify_eq; try done.
    specialize (Hf (next_fd (os w)) (or_introl ltac:(done))). lia.
Qed.

Lemma tidy_initial fs : tidy (initial_world fs).
Proof.
  split; simpl; try done. intros s [? H]. by rewrite lookup_empty in H.
Qed.

Lemma tidy_file_log msg w : tidy w → tidy (file_log msg w).
Proof.
  intros T. eapply tidy_same; eauto; try done; by destruct T.
Qed.

Lemma retarget_telemetry_tidy d w : tidy w → tidy (retarget_telemetry d w).
Proof.
  intros T. unfold retarget_telemetry.
  repeat case_match; try done;
    (eapply tidy_same; [exact T|..]; try done; by destruct T).
Qed.

Lemma switch_telemetry_tidy o d w : tidy w → tidy (switch_telemetry o d w).
Proof.
  intros T. unfold switch_telemetry.
  destruct (Py.dict_has _ d); [|done].
  destruct (telemetry_sock (cfg w)) as [s|] eqn:Hs; simpl.
  - rewrite andb_true_r, andb_false_r.
    destruct (Py.get_bool _ d); simpl; [done|].
    eapply tidy_close_telemetry; eauto; try done; by destruct T.
  - rewrite andb_false_r, andb_true_r.
    destruct (Py.get_bool _ d); simpl; [|done].
    destruct (_create_udp_socket _ _ _ _ _ w) as [r w1] eqn:Hc.
    apply create_spec in Hc as (Hcfg & _ & Hn & Hr);
      [|by apply (tidy_fresh w)].
    destruct r as [s|].
    + destruct Hr as (-> & Hn' & Hsk).
      eapply tidy_open_telemetry; eauto; simpl; rewrite ?Hcfg; try done;
        by destruct T.
    + eapply tidy_same; eauto; simpl; rewrite ?Hcfg; try done; by destruct T.
Qed.

Lemma rebind_input_tidy o d w : tidy w → tidy (rebind_input o d w).
Proof.
  intros T. unfold rebind_input.
  destruct (_ || _); [|done].
  destruct (Py.int _) as [p|]; [|by apply tidy_file_log].
  set (host := Py.dict_get_default _ _ d).
  set (w2 := match input_sock (cfg (set_input_target host p w)) with
             | Some s => _ | None => _ end).
  assert (T2 : tidy w2 ∧ input_sock (cfg w2) = None ∧
               input_addr (cfg w2) = (host, p)).
  { subst w2. simpl. destruct (input_sock (cfg w)) as [s|] eqn:Hs.
    - split; [|done]. eapply tidy_close_input; eauto; try done; by destruct T.
    - split; [|done]. eapply tidy_same; eauto; simpl; try done;
        try (by destruct T). rewrite Hs. by intros [? ?]. }
  destruct T2 as (T2 & Hnone & Haddr).
  destruct (_create_udp_socket _ _ _ _ _ w2) as [r w3] eqn:Hc.
  apply create_spec in Hc as (Hcfg & _ & Hn & Hr);
    [|by apply (tidy_fresh w2)].
  apply tidy_file_log.
  destruct r as [s|].
  - destruct Hr as (-> & Hn' & Hsk).
    eapply (tidy_open_input w2); eauto; simpl; rewrite ?Hcfg; try done;
      by destruct T2.
  - eapply (tidy_same w2); eauto; simpl; rewrite ?Hcfg; try done;
      try (by destruct T2); congruence.
Qed.

Lemma switch_input_tidy o d w : tidy w → tidy (switch_input o d w).
Proof.
  intros T. unfold switch_input.
  destruct (Py.dict_has _ d); [|done].
  destruct (input_sock (cfg w)) as [s|] eqn:Hs; simpl.
  - rewrite andb_true_r, andb_false_r.
    destruct (Py.get_bool _ d); simpl; [done|].
    eapply tidy_close_input; eauto; try done; by destruct T.
  - rewrite andb_false_r, andb_true_r.
    destruct (Py.get_bool _ d); simpl; [|done].
    destruct (_create_udp_socket _ _ _ _ _ w) as [r w1] eqn:Hc.
    apply create_spec in Hc as (Hcfg & _ & Hn & Hr);
      [|by apply (tidy_fresh w)].
    destruct r as [s|].
    + destruct Hr as (-> & Hn' & Hsk).
      eapply (tidy_open_input w); eauto; simpl; rewrite ?Hcfg; try done;
        by destruct T.
    + eapply tidy_same; eauto; simpl; rewrite ?Hcfg; try done; by destruct T.
Qed.

Lemma consume_reset_tidy o d path w : tidy w → tidy (consume_reset o d path w).
Proof.
  intros T. destruct (consume_reset_frame o d path w) as (H1 & H2 & H3).
  eapply tidy_same; eauto; rewrite ?H1; try done; try lia; by destruct T.
Qed.

Lemma handle_input_data_tidy o cmd path w :
  tidy w → tidy (handle_input_data o cmd path w).
Proof.
  intros T. destruct cmd; try done. simpl.
  by apply consume_reset_tidy, switch_input_tidy, rebind_input_tidy,
    switch_telemetry_tidy, retarget_telemetry_tidy.
Qed.

Lemma drain_input_tidy rx w : tidy w → tidy (drain_input rx w).
Proof.
  revert w. induction rx as [|dg rx IH]; intros w T; simpl.
  - destruct (input_sock (cfg w)); [done|]. by apply tidy_file_log.
  - destruct (input_sock (cfg w)) as [s|]; [|by apply tidy_file_log].
    destruct (sockets (os w) !! s); [|done].
    destruct (dg_json dg).
    + by apply IH, handle_input_data_tidy.
    + by apply IH, tidy_file_log.
Qed.

Lemma check_input_file_tidy h i w : tidy w → tidy (check_input_file h i w).
Proof.
  intros T. unfold check_input_file.
  set (r := match input_file_path h w with Some p => _ | None => _ end).
  assert (T1 : tidy r.2).
  { subst r. destruct (input_file_path h w) as [p|]; [|done].
    destruct (if in_read_ok i then files (os w) !! p else None) as [[doc|]|];
      simpl; try done; by apply tidy_file_log. }
  destruct r as [data w1]. simpl in T1.
  set (w2 := match data with Some doc => _ | None => _ end).
  assert (T2 : tidy w2).
  { subst w2. destruct data as [doc|]; [|done].
    destruct (is_dict doc); [|done]. by apply handle_input_data_tidy. }
  destruct (live (input_sock (cfg w2))); [|done]. by apply drain_input_tidy.
Qed.

(** Sampling and delivery leave the globals and the sockets alone. *)
Lemma deliver_frame h (t : tick_outcomes) payload w :
  cfg (deliver h t payload w).1 = cfg w ∧
  sockets (os (deliver h t payload w).1) = sockets (os w) ∧
  next_fd (os (deliver h t payload w).1) = next_fd (os w).
Proof.
  unfold deliver.
  destruct (send_udp_spec t payload w) as (_ & _ & (S1 & S2 & S3 & _)).
  destruct (send_udp t payload w) as [sent w1]. simpl in *.
  destruct sent; [done|].
  pose proof (write_via_tmp_frame (t_telemetry_file t) (telemetry_path h)
                payload w1) as (W1 & W2 & W3).
  destruct (write_via_tmp _ _ _ w1) as [w2 ok]. simpl in *.
  destruct ok; cbn [fst]; [by rewrite W1, W2, W3, S1, S2, S3|].
  destruct (log_both_spec (t_aclog_write t) "Error writing telemetry file: %s" w2)
    as (_ & _ & (L1 & L2 & L3 & _) & _).
  by rewrite L1, L2, L3, W1, W2, W3, S1, S2, S3.
Qed.

Lemma acUpdate_frame h (t : tick_outcomes) w :
  let w0 := check_input_file h (t_intake t) w in
  cfg (acUpdate h t w).1 = cfg w0 ∧
  sockets (os (acUpdate h t w).1) = sockets (os w0) ∧
  next_fd (os (acUpdate h t w).1) = next_fd (os w0).
Proof.
  intros w0. destruct (snapshot_built h t) eqn:Hb.
  - destruct (sample_tick_built h t w0 Hb) as (_ & _ & (S1 & S2 & S3 & _)).
    destruct (acUpdate_after_deliver h t w Hb) as (_ & (A1 & A2 & A3 & _) & _).
    fold w0 in A1, A2, A3.
    destruct (deliver_frame h t (snapshot_of h (t_call t) (t_now t))
                (sample_tick h t w0).2) as (D1 & D2 & D3).
    rewrite A1, A2, A3, D1, D2, D3. done.
  - destruct (acUpdate_not_built h t w Hb) as (_ & (A1 & A2 & A3 & _)). done.
Qed.

Lemma acUpdate_tidy h (t : tick_outcomes) w : tidy w → tidy (acUpdate h t w).1.
Proof.
  intros T. pose proof (check_input_file_tidy h (t_intake t) w T) as T0.
  destruct (acUpdate_frame h t w) as (F1 & F2 & F3).
  eapply tidy_same; [exact T0|..]; rewrite ?F1; try done; try lia;
    by destruct T0.
Qed.

Lemma acMain_tidy c1 c2 w :
  tidy w → telemetry_sock (cfg w) = None → input_sock (cfg w) = None →
  tidy (acMain c1 c2 w).
Proof.
  intros T Ht Hi. unfold acMain.
  set (w0 := file_log _ (file_log _ w)).
  assert (T0 : tidy w0) by (by do 2 apply tidy_file_log).
  destruct (_create_udp_socket c1 _ _ _ _ w0) as [ts w1] eqn:Hc1.
  apply create_spec in Hc1 as (Hcfg1 & _ & Hn1 & Hr1);
    [|by apply (tidy_fresh w0)].
  set (w3 := if live ts then _ else _).
  assert (T3 : tidy w3 ∧ input_sock (cfg w3) = None ∧
               INPUT_UDP_HOST (cfg w3) = INPUT_UDP_HOST (cfg w) ∧
               INPUT_UDP_PORT (cfg w3) = INPUT_UDP_PORT (cfg w)).
  { subst w3. destruct ts as [s|]; simpl.
    - destruct Hr1 as (-> & Hn' & Hsk). split; [|by rewrite Hcfg1].
      apply tidy_file_log.
      eapply (tidy_open_telemetry w0); eauto; simpl; rewrite ?Hcfg1; try done;
        by destruct T.
    - split; [|by rewrite Hcfg1].
      eapply (tidy_same w0); eauto; simpl; rewrite ?Hcfg1; try done;
        by destruct T. }
  destruct T3 as (T3 & Hi3 & Hh3 & Hp3).
  destruct (_create_udp_socket c2 _ _ _ _ w3) as [ins w4] eqn:Hc2.
  apply create_spec in Hc2 as (Hcfg2 & _ & Hn2 & Hr2);
    [|by apply (tidy_fresh w3)].
  destruct ins as [s|]; simpl.
  - destruct Hr2 as (-> & Hn' & Hsk). apply tidy_file_log.
    eapply (tidy_open_input w3); eauto; simpl; rewrite ?Hcfg2; try done;
      by destruct T3.
  - eapply (tidy_same w3); eauto; simpl; rewrite ?Hcfg2; try done;
      try (by destruct T3); congruence.
Qed.

Lemma acShutdown_tidy w : tidy w → tidy (acShutdown w).
Proof.
  intros T. unfold acShutdown.
  set (w1 := match telemetry_sock (cfg w) with Some s => _ | None => _ end).
  assert (T1 : tidy w1).
  { subst w1. destruct (telemetry_sock (cfg w)) as [s|] eqn:E; [|done].
    apply tidy_file_log.
    eapply tidy_close_telemetry; eauto; try done; by destruct T. }
  destruct (input_sock (cfg w1)) as [s|] eqn:E; [|done].
  apply tidy_file_log.
  eapply tidy_close_input; eauto; try done; by destruct T1.
Qed.

Lemma host_step_tidy h w e : tidy w → tidy (host_step h w e).
Proof.
  intros T. destruct e; simpl.
  - by apply acUpdate_tidy.
  - by apply acUpdate_tidy.
  - by apply acShutdown_tidy.
Qed.

Lemma run_app_tidy h fs c1 c2 evs : tidy (run_app h fs c1 c2 evs).
Proof.
  unfold run_app.
  assert (T : tidy (acMain c1 c2 (initial_world fs)))
    by (apply acMain_tidy; [apply tidy_initial | done | done]).
  revert T. generalize (acMain c1 c2 (initial_world fs)).
  induction evs as [|e evs IH]; intros w T; simpl; [done|].
  by apply IH, host_step_tidy.
Qed.

Lemma handle_set_size (o : option nat) :
  (size (from_option (λ s, {[s]}) (∅ : gset nat) o) ≤ 1)%nat.
Proof.
  destruct o; cbn [from_option]; [by rewrite size_singleton|].
  rewrite size_empty. lia.
Qed.

Lemma tidy_size w : tidy w → (size (sockets (os w)) ≤ 2)%nat.
Proof.
  intros T.
  set (A := from_option (λ s, {[s]}) (∅ : gset nat) (telemetry_sock (cfg w))).
  set (B := from_option (λ s, {[s]}) (∅ : gset nat) (input_sock (cfg w))).
  assert (Hsub : dom (sockets (os w)) ⊆ A ∪ B).
  { intros s Hs. apply elem_of_dom in Hs as [i Hs].
    rewrite (tidy_sockets w T) in Hs. unfold expected_socket in Hs.
    subst A B. repeat case_decide; try done.
    - apply elem_of_union_l.
      match goal with E : telemetry_sock _ = _ |- _ => rewrite E end.
      cbn [from_option]. by apply elem_of_singleton.
    - apply elem_of_union_r.
      match goal with E : input_sock _ = _ |- _ => rewrite E end.
      cbn [from_option]. by apply elem_of_singleton. }
  rewrite <- size_dom. apply subseteq_size in Hsub.
  rewrite size_union_alt in Hsub.
  pose proof (handle_set_size (telemetry_sock (cfg w))) as HA.
  pose proof (handle_set_size (input_sock (cfg w))) as HB.
  fold A in HA. fold B in HB.
  assert (size (B ∖ A) ≤ size B)%nat
    by (by apply subseteq_size, subseteq_difference_l).
  lia.
Qed.

Lemma tidy_input_socket w s :
  tidy w → input_sock (cfg w) = Some s →
  sockets (os w) !! s = Some (mkSock (Some (input_addr (cfg w))) false).
Proof.
  intros T Hs. rewrite (tidy_sockets w T). unfold expected_socket.
  repeat case_decide; try done. by destruct (tidy_apart w T s).
Qed.

Lemma tidy_telemetry_socket w s :
  tidy w → telemetry_sock (cfg w) = Some s →
  sockets (os w) !! s = Some (mkSock None true).
Proof.
  intros T Hs. rewrite (tidy_sockets w T). unfold expected_socket.
  by repeat case_decide.
Qed.


(** Lines 273-280: the handle an enabling leaves. *)
Lemma switch_input_enable_result o d w :
  Py.dict_has "use_input_udp" d = true →
  Py.get_bool "use_input_udp" d = true →
  input_sock (cfg w) = None →
  let w' := switch_input o d w in
  INPUT_UDP_HOST (cfg w') = INPUT_UDP_HOST (cfg w) ∧
  INPUT_UDP_PORT (cfg w') = INPUT_UDP_PORT (cfg w) ∧
  input_addr (cfg w') = input_addr (cfg w) ∧
  input_sock (cfg w')
  = (if creation_fails (o_enable_socket o)
          (INPUT_UDP_HOST (cfg w)) (INPUT_UDP_PORT (cfg w))
     then None else Some (next_fd (os w))).
Proof.
  intros Hk Hb Hs w'. subst w'. unfold switch_input.
  rewrite Hk, Hb, Hs. simpl.
  pose proof (create_bound_result (o_enable_socket o)
                (INPUT_UDP_HOST (cfg w)) (INPUT_UDP_PORT (cfg w)) false w) as Hr.
  pose proof (create_frame (o_enable_socket o) true
                (INPUT_UDP_HOST (cfg w)) (INPUT_UDP_PORT (cfg w)) false w)
    as [Hc _].
  destruct (_create_udp_socket _ _ _ _ _ w) as [r w3]. simpl in *.
  rewrite Hc, Hr. done.
Qed.

(** Lines 266-272: a disabling leaves no handle. *)
Lemma switch_input_disable_result o d w :
  Py.dict_has "use_input_udp" d = true →
  Py.get_bool "use_input_udp" d = false →
  let w' := switch_input o d w in
  INPUT_UDP_HOST (cfg w') = INPUT_UDP_HOST (cfg w) ∧
  INPUT_UDP_PORT (cfg w') = INPUT_UDP_PORT (cfg w) ∧
  input_addr (cfg w') = input_addr (cfg w) ∧
  input_sock (cfg w') = None ∧
  (next_fd (os w') = next_fd (os w)).
Proof.
  intros Hk Hb w'. subst w'. unfold switch_input. rewrite Hk, Hb.
  destruct (input_sock (cfg w)) eqn:E; simpl; by rewrite ?E.
Qed.

(** The first two blocks leave the command-in globals alone. *)
Lemma telemetry_blocks_input_frame o d w :
  let w0 := switch_telemetry o d (retarget_telemetry d w) in
  INPUT_UDP_HOST (cfg w0) = INPUT_UDP_HOST (cfg w) ∧
  INPUT_UDP_PORT (cfg w0) = INPUT_UDP_PORT (cfg w) ∧
  input_sock (cfg w0) = input_sock (cfg w) ∧
  input_addr (cfg w0) = input_addr (cfg w).
Proof.
  intros w0. subst w0.
  destruct (switch_telemetry_input_frame o d (retarget_telemetry d w))
    as (A1 & A2 & A3 & A4).
  destruct (retarget_telemetry_input_frame d w) as (B1 & B2 & B3 & B4).
  repeat split; congruence.
Qed.

Lemma rebind_input_idle o d w :
  Py.dict_has "input_udp_host" d = false →
  Py.dict_has "input_udp_port" d = false →
  rebind_input o d w = w.
Proof. intros H1 H2. unfold rebind_input. by rewrite H1, H2. Qed.

End Tidy.

(** X13.  Whatever the host calls after start-up (updates, renders, a
    shut-down, in any order and with any outcome of the environment's
    calls), the live sockets are exactly those the two handles hold: the
    telemetry socket unbound and blocking, the command-in socket bound to
    [input_addr] and non-blocking.  The two handles never hold the same
    socket, so the app never has more than two sockets open. *)
Theorem app_sockets_are_its_handles
    (h : Host) (fs : gmap string fcontent) (c1 c2 : create_outcome)
    (evs : list host_event) :
  let w := run_app h fs c1 c2 evs in
  (∀ s, sockets (os w) !! s = expected_socket (cfg w) s) ∧
  (∀ s, telemetry_sock (cfg w) = Some s → input_sock (cfg w) ≠ Some s) ∧
  (size (sockets (os w)) ≤ 2)%nat.
Proof.
  intros w. pose proof (run_app_tidy h fs c1 c2 evs) as T. fold w in T.
  split; [apply (tidy_sockets w T)|]. split; [apply (tidy_apart w T)|].
  by apply tidy_size.
Qed.

(** X14.  The address pairs never go stale: at every point of a run,
    [telemetry_addr] is the pair of [TELEMETRY_UDP_HOST] and
    [TELEMETRY_UDP_PORT], and [input_addr] the pair of [INPUT_UDP_HOST] and
    [INPUT_UDP_PORT]. *)
Theorem app_addresses_follow_host_and_port
    (h : Host) (fs : gmap string fcontent) (c1 c2 : create_outcome)
    (evs : list host_event) :
  let w := run_app h fs c1 c2 evs in
  telemetry_addr (cfg w)
  = (TELEMETRY_UDP_HOST (cfg w), TELEMETRY_UDP_PORT (cfg w)) ∧
  input_addr (cfg w) = (INPUT_UDP_HOST (cfg w), INPUT_UDP_PORT (cfg w)).
Proof.
  intros w. pose proof (run_app_tidy h fs c1 c2 evs) as T. fold w in T.
  by destruct T.
Qed.



(** X20.  Sampling and delivery never touch the transport state: after a
    tick, the globals and the live sockets are what the tick's command
    intake left, and on a tick that brings no command they are what they
    were before the tick.  In particular a send that fails closes nothing
    and clears no handle. *)
Theorem tick_leaves_the_transport_to_the_commands
    (h : Host) (t : tick_outcomes) (w : World) :
  let w0 := check_input_file h (t_intake t) w in
  let w' := (acUpdate h t w).1 in
  cfg w' = cfg w0 ∧ sockets (os w') = sockets (os w0) ∧
  (no_commands h (t_intake t) w →
   cfg w' = cfg w ∧ sockets (os w') = sockets (os w)).
Proof.
  intros w0 w'. destruct (acUpdate_frame h t w) as (F1 & F2 & _).
  do 2 (split; [done|]). intros Hnc. subst w' w0.
  rewrite F1, F2. by rewrite (check_input_file_idle h (t_intake t) w Hnc).
Qed.





(** X12.  Disabling the command-in endpoint and enabling it again brings it
    back where it was: at any point of a run, a message with a false
    [use_input_udp] leaves no handle and no bound socket, and a following
    message with a true [use_input_udp] (neither message carrying
    [input_udp_host] or [input_udp_port]), the creation succeeding, ends
    with a live handle on a non-blocking socket bound to the address the
    endpoint had, host and port unchanged. *)
Theorem disable_then_enable_input
    (h : Host) (fs : gmap string fcontent) (c1 c2 : create_outcome)
    (evs : list host_event)
    (o1 o2 : hid_outcomes) (d1 d2 : pydict) (path1 path2 : option string) :
  let w := run_app h fs c1 c2 evs in
  Py.dict_has "input_udp_host" d1 = false →
  Py.dict_has "input_udp_port" d1 = false →
  Py.dict_has "use_input_udp" d1 = true →
  Py.get_bool "use_input_udp" d1 = false →
  Py.dict_has "input_udp_host" d2 = false →
  Py.dict_has "input_udp_port" d2 = false →
  Py.dict_has "use_input_udp" d2 = true →
  Py.get_bool "use_input_udp" d2 = true →
  creation_fails (o_enable_socket o2)
    (INPUT_UDP_HOST (cfg w)) (INPUT_UDP_PORT (cfg w)) = false →
  let w1 := handle_input_data o1 (PDict d1) path1 w in
  let w2 := handle_input_data o2 (PDict d2) path2 w1 in
  input_sock (cfg w1) = None ∧
  (∀ k, ¬ command_in_handle w1 k) ∧
  ∃ s, input_sock (cfg w2) = Some s ∧
       sockets (os w2) !! s = Some (mkSock (Some (input_addr (cfg w))) false) ∧
       INPUT_UDP_HOST (cfg w2) = INPUT_UDP_HOST (cfg w) ∧
       INPUT_UDP_PORT (cfg w2) = INPUT_UDP_PORT (cfg w) ∧
       input_addr (cfg w2) = input_addr (cfg w).
Proof.
  intros w Hh1 Hp1 Hk1 Hb1 Hh2 Hp2 Hk2 Hb2 Hok w1 w2.
  pose proof (run_app_tidy h fs c1 c2 evs) as T. fold w in T.
  assert (T1 : tidy w1) by (by apply handle_input_data_tidy).
  assert (T2 : tidy w2) by (by apply handle_input_data_tidy).
  (* the first message *)
  assert (A : INPUT_UDP_HOST (cfg w1) = INPUT_UDP_HOST (cfg w) ∧
              INPUT_UDP_PORT (cfg w1) = INPUT_UDP_PORT (cfg w) ∧
              input_addr (cfg w1) = input_addr (cfg w) ∧
              input_sock (cfg w1) = None).
  { subst w1. simpl.
    set (w0 := switch_telemetry o1 d1 (retarget_telemetry d1 w)).
    destruct (telemetry_blocks_input_frame o1 d1 w) as (F1 & F2 & F3 & F4).
    fold w0 in F1, F2, F3, F4.
    rewrite (rebind_input_idle o1 d1 w0 Hh1 Hp1).
    destruct (switch_input_disable_result o1 d1 w0 Hk1 Hb1)
      as (S1 & S2 & S3 & S4 & _).
    destruct (consume_reset_frame o1 d1 path1 (switch_input o1 d1 w0))
      as (C1 & _).
    by rewrite C1, S1, S2, S3, S4, F1, F2, F4. }
  destruct A as (A1 & A2 & A3 & A4).
  split; [done|]. split.
  { intros k (i & Hl & Hb).
    pose proof (bound_is_input w1 (tidy_consistent w1 T1) k i Hl Hb) as E.
    by rewrite A4 in E. }
  (* the second message *)
  assert (B : ∃ s, input_sock (cfg w2) = Some s ∧
              INPUT_UDP_HOST (cfg w2) = INPUT_UDP_HOST (cfg w1) ∧
              INPUT_UDP_PORT (cfg w2) = INPUT_UDP_PORT (cfg w1) ∧
              input_addr (cfg w2) = input_addr (cfg w1)).
  { subst w2. simpl.
    set (w0 := switch_telemetry o2 d2 (retarget_telemetry d2 w1)).
    destruct (telemetry_blocks_input_frame o2 d2 w1) as (F1 & F2 & F3 & F4).
    fold w0 in F1, F2, F3, F4.
    rewrite (rebind_input_idle o2 d2 w0 Hh2 Hp2).
    assert (Hnone : input_sock (cfg w0) = None) by (by rewrite F3).
    destruct (switch_input_enable_result o2 d2 w0 Hk2 Hb2 Hnone)
      as (S1 & S2 & S3 & S4).
    rewrite F1, F2, A1, A2, Hok in S4.
    destruct (consume_reset_frame o2 d2 path2 (switch_input o2 d2 w0))
      as (C1 & _).
    exists (next_fd (os w0)). by rewrite C1, S1, S2, S3, S4, F1, F2, F4. }
  destruct B as (s & B1 & B2 & B3 & B4).
  exists s. split; [done|]. split; [|by rewrite B2, B3, B4, A1, A2, A3].
  rewrite (tidy_input_socket w2 s T2 B1). by rewrite B4, A3.
Qed.

Lemma disable_then_enable_input_witness :
  let w := run_app full_host ∅ CreateOk CreateOk [] in
  let w1 := handle_input_data all_well (PDict [("use_input_udp", PBool false)])
              None w in
  let w2 := handle_input_data all_well (PDict [("use_input_udp", PBool true)])
              None w1 in
  input_sock (cfg w) = Some 1%nat ∧
  input_sock (cfg w1) = None ∧
  (∀ k, ¬ command_in_handle w1 k) ∧
  ∃ s, input_sock (cfg w2) = Some s ∧
       sockets (os w2) !! s = Some (mkSock (Some (input_addr (cfg w))) false) ∧
       INPUT_UDP_HOST (cfg w2) = INPUT_UDP_HOST (cfg w) ∧
       INPUT_UDP_PORT (cfg w2) = INPUT_UDP_PORT (cfg w) ∧
       input_addr (cfg w2) = input_addr (cfg w).
Proof.
  split; [reflexivity|].
  exact (disable_then_enable_input full_host ∅ CreateOk CreateOk []
           all_well all_well
           [("use_input_udp", PBool false)] [("use_input_udp", PBool true)]
           None None
           eq_refl eq_refl eq_refl eq_refl eq_refl eq_refl eq_refl eq_refl
           eq_refl).
Defined.

(** ** The intake of commands *)

Section Intake.

Implicit Types (w : World) (d : pydict) (o : hid_outcomes) (h : Host).

(** A message without a path, or whose [reset] is not [True], makes no
    file call and changes no file. *)
Lemma handle_input_data_files o cmd path w :
  (∀ d, cmd = PDict d → Py.get_is_True "reset" d = true →
        path_given path = None) →
  files (os (handle_input_data o cmd path w)) = files (os w) ∧
  ∃ evs, trace (os (handle_input_data o cmd path w)) = trace (os w) ++ evs ∧
         Forall (fun e => kind e ≠ FileCall) evs.
Proof.
  intros H. destruct cmd as [| | | | | |d];
    try (split; [done|]; exists []; by rewrite app_nil_r).
  specialize (H d eq_refl). simpl.
  set (w0 := switch_input o d _).
  pose proof (transport_blocks_files o d w) as F0. fold w0 in F0.
  destruct (transport_blocks_grow o d w) as (e0 & E0 & G0). fold w0 in E0.
  assert (N0 : Forall (fun e => kind e ≠ FileCall) e0).
  { eapply kinds_exclude; [|exact G0]. not_in_kinds. }
  unfold consume_reset.
  destruct (Py.get_is_True "reset" d).
  - rewrite (H eq_refl).
    destruct (call_sendcmd_grows (o_cmd68 o) 68 w0) as (e1 & E1 & G1).
    destruct (call_sendcmd_grows (o_cmd69 o) 69 (call_sendcmd (o_cmd68 o) 68 w0))
      as (e2 & E2 & G2).
    split; [by rewrite !call_sendcmd_files|].
    exists (e0 ++ e1 ++ e2). split; [by rewrite E2, E1, E0, <- !app_assoc|].
    apply Forall_app. split; [done|].
    apply Forall_app. split;
      (eapply kinds_exclude; [|eassumption]; not_in_kinds).
  - split; [done|]. by exists e0.
Qed.



(** A datagram that keeps the command-in endpoint keeps its handle. *)
Lemma udp_command_keeps_handle w dg :
  keeps_input_endpoint dg →
  is_Some (input_sock (cfg w)) →
  input_sock (cfg (udp_command w dg)) = input_sock (cfg w).
Proof.
  intros K Hlive. unfold udp_command.
  destruct (dg_json dg) as [cmd|] eqn:E; [|done].
  destruct cmd as [| | | | | |d]; try done.
  destruct (K d E) as (K1 & K2 & K3). simpl.
  set (w0 := switch_telemetry _ d (retarget_telemetry d w)).
  destruct (telemetry_blocks_input_frame (dg_outcomes dg) d w)
    as (_ & _ & F3 & _). fold w0 in F3.
  rewrite (rebind_input_idle _ d w0 K1 K2).
  assert (Sw : switch_input (dg_outcomes dg) d w0 = w0).
  { apply switch_input_idle. intros Hk. rewrite (K3 Hk), F3.
    by destruct Hlive as [s ->]. }
  rewrite Sw.
  destruct (consume_reset_frame (dg_outcomes dg) d None w0) as (C1 & _).
  by rewrite C1.
Qed.

Lemma udp_command_tidy w dg : tidy w → tidy (udp_command w dg).
Proof.
  intros T. unfold udp_command. destruct (dg_json dg).
  - by apply handle_input_data_tidy.
  - by apply tidy_file_log.
Qed.

Lemma drain_input_fold rx w :
  tidy w → is_Some (input_sock (cfg w)) →
  Forall keeps_input_endpoint rx →
  drain_input rx w = fold_left udp_command rx w.
Proof.
  intros T Hlive K. revert w T Hlive.
  induction K as [|dg rx Kdg _ IH]; intros w T Hlive.
  - simpl. by destruct Hlive as [s ->].
  - cbn [drain_input fold_left].
    destruct Hlive as [s Hs]. rewrite Hs.
    rewrite (tidy_input_socket w s T Hs).
    assert (Hk : input_sock (cfg (udp_command w dg)) = Some s).
    { rewrite udp_command_keeps_handle; [done|done|by eexists]. }
    pose proof (udp_command_tidy w dg T) as T'.
    unfold udp_command in *.
    destruct (dg_json dg) as [cmd|]; (apply IH; [done | by eexists]).
Qed.

End Intake.



(** X17.  Commands that arrive by UDP are processed one by one in the order
    of their arrival: at any point of a run with a live command-in handle
    and no command file, the intake of a tick is the fold of the
    per-datagram step over the datagrams received, as long as none of them
    moves or disables the command-in endpoint.  A datagram that is not
    JSON only leaves a line in the log; the ones after it are processed. *)
Theorem udp_commands_run_in_arrival_order
    (h : Host) (fs : gmap string fcontent) (c1 c2 : create_outcome)
    (evs : list host_event) (i : intake) :
  let w := run_app h fs c1 c2 evs in
  is_Some (input_sock (cfg w)) →
  input_file_path h w = None →
  Forall keeps_input_endpoint (in_rx i) →
  check_input_file h i w = fold_left udp_command (in_rx i) w.
Proof.
  intros w Hlive Hnf K.
  pose proof (run_app_tidy h fs c1 c2 evs) as T. fold w in T.
  unfold check_input_file. rewrite Hnf. cbn zeta.
  destruct Hlive as [s Hs]. rewrite Hs. cbn [live].
  apply drain_input_fold; [done | by eexists | done].
Qed.

Lemma udp_commands_run_in_arrival_order_witness :
  let w := run_app full_host ∅ CreateOk CreateOk [] in
  let rx := [mkDatagramIn None all_well;
             mkDatagramIn (Some (PDict [("telemetry_udp_port", PInt 9999)]))
               all_well] in
  let w' := check_input_file full_host (mkIntake true all_well rx) w in
  w' = fold_left udp_command rx w ∧
  telemetry_addr (cfg w') = (PStr "127.0.0.1", 9999).
Proof.
  cbv zeta.
  assert (K : Forall keeps_input_endpoint
                [mkDatagramIn None all_well;
                 mkDatagramIn (Some (PDict [("telemetry_udp_port", PInt 9999)]))
                   all_well]).
  { constructor; [|constructor; [|constructor]].
    - intros d Hd. discriminate Hd.
    - intros d [= <-]. repeat split; done. }
  pose proof (udp_commands_run_in_arrival_order full_host ∅ CreateOk CreateOk []
                (mkIntake true all_well _) (mk_is_Some _ _ eq_refl) eq_refl K)
    as H.
  split; [exact H|]. vm_compute. reflexivity.
Defined.

(** X18.  A datagram that disables the command-in endpoint ends the intake
    of its tick: the loop goes on to read from the handle that is now
    [None], the error is caught and logged, and the datagrams that were
    still waiting are not processed in this tick. *)
Theorem disabling_datagram_ends_the_intake
    (h : Host) (fs : gmap string fcontent) (c1 c2 : create_outcome)
    (evs : list host_event) (dg : datagram_in) (d : pydict)
    (rest : list datagram_in) :
  let w := run_app h fs c1 c2 evs in
  is_Some (input_sock (cfg w)) →
  dg_json dg = Some (PDict d) →
  Py.dict_has "input_udp_host" d = false →
  Py.dict_has "input_udp_port" d = false →
  Py.dict_has "use_input_udp" d = true →
  Py.get_bool "use_input_udp" d = false →
  drain_input (dg :: rest) w
  = file_log "Error reading from input UDP socket: %s"
      (handle_input_data (dg_outcomes dg) (PDict d) None w).
Proof.
  intros w [s Hs] Hj Hh Hp Hk Hb.
  pose proof (run_app_tidy h fs c1 c2 evs) as T. fold w in T.
  cbn [drain_input]. rewrite Hs, (tidy_input_socket w s T Hs), Hj.
  assert (Hnone : input_sock (cfg (handle_input_data (dg_outcomes dg) (PDict d)
                                      None w)) = None).
  { simpl. set (w0 := switch_telemetry _ d (retarget_telemetry d w)).
    rewrite (rebind_input_idle _ d w0 Hh Hp).
    destruct (switch_input_disable_result (dg_outcomes dg) d w0 Hk Hb)
      as (_ & _ & _ & S4 & _).
    destruct (consume_reset_frame (dg_outcomes dg) d None
                (switch_input (dg_outcomes dg) d w0)) as (C1 & _).
    by rewrite C1. }
  destruct rest as [|dg' rest]; cbn [drain_input]; by rewrite Hnone.
Qed.

Lemma disabling_datagram_ends_the_intake_witness :
  let w := run_app full_host ∅ CreateOk CreateOk [] in
  let off := mkDatagramIn (Some (PDict [("use_input_udp", PBool false)]))
               all_well in
  let reset := mkDatagramIn (Some (PDict [("reset", PBool true)])) all_well in
  let w' := drain_input [off; reset] w in
  w' = file_log "Error reading from input UDP socket: %s"
         (handle_input_data all_well (PDict [("use_input_udp", PBool false)])
            None w) ∧
  host_calls (trace (os w')) = [].
Proof.
  cbv zeta. split; [|vm_compute; reflexivity].
  exact (disabling_datagram_ends_the_intake full_host ∅ CreateOk CreateOk []
           (mkDatagramIn (Some (PDict [("use_input_udp", PBool false)])) all_well)
           [("use_input_udp", PBool false)]
           [mkDatagramIn (Some (PDict [("reset", PBool true)])) all_well]
           (mk_is_Some _ _ eq_refl) eq_refl eq_refl eq_refl eq_refl eq_refl).
Defined.



(** ** The tick handler *)

Section TickFacts.

Implicit Types (w : World) (h : Host) (t : tick_outcomes).





End TickFacts.





(** ** The command file over several ticks *)

Section FileAgain.

Implicit Types (w : World) (d : pydict) (h : Host) (i : intake).

Lemma list_ascii_of_string_app (a b : string) :
  list_ascii_of_string (a +:+ b)
  = list_ascii_of_string a ++ list_ascii_of_string b.
Proof. induction a as [|c a IH]; simpl; [done|]. by rewrite IH. Qed.

(** The temporary sibling of one command file is not the other command
    file: the names end differently. *)
Lemma command_file_not_tmp (a b : string) :
  path_join a "AC_RL_input.json" ≠ tmp_of (path_join b "AC_RL_input.json").
Proof.
  unfold tmp_of, path_join. intros H.
  apply (f_equal list_ascii_of_string) in H.
  rewrite !list_ascii_of_string_app in H.
  apply (f_equal (@last ascii)) in H. revert H.
  rewrite !app_assoc.
  change (list_ascii_of_string "AC_RL_input.json")
    with (list_ascii_of_string "AC_RL_input.jso" ++ ["n"%char]).
  change (list_ascii_of_string ".tmp")
    with (list_ascii_of_string ".tm" ++ ["p"%char]).
  rewrite !app_assoc, !last_snoc. done.
Qed.

(** The files after a [reset] was consumed from file [p]. *)
Lemma handle_reset_files o d path p w :
  Py.get_is_True "reset" d = true →
  path_given path = Some p →
  let w' := handle_input_data o (PDict d) path w in
  files (os w') !! p
  = (if write_succeeds (o_input_file o)
     then Some (Json (PDict (Py.dict_set "reset" (PBool false) d)))
     else files (os w) !! p) ∧
  (∀ q, q ≠ p → q ≠ tmp_of p → files (os w') !! q = files (os w) !! q) ∧
  (write_succeeds (o_input_file o) = true → files (os w') !! tmp_of p = None).
Proof.
  intros Hreset Hpath w'. subst w'. simpl.
  set (w0 := switch_input o d _).
  pose proof (transport_blocks_files o d w) as F0. fold w0 in F0.
  unfold consume_reset. rewrite Hreset, Hpath.
  set (w2 := call_sendcmd (o_cmd69 o) 69 _).
  assert (F2 : files (os w2) = files (os w))
    by (subst w2; by rewrite !call_sendcmd_files).
  pose proof (write_via_tmp_files (o_input_file o) p
                (PDict (Py.dict_set "reset" (PBool false) d)) w2) as W.
  destruct (write_via_tmp _ _ _ w2) as [w3 ok]. cbn [fst] in W.
  rewrite F2 in W.
  assert (E : files (os (if ok then w3
                         else file_log "Error writing input file after reset: %s" w3))
              = files (os w3)) by (by destruct ok).
  by rewrite E.
Qed.

(** Rewriting the command file does not change which file is the command
    file. *)
Lemma input_file_path_stable h w w' p c :
  input_file_path h w = Some p →
  files (os w') !! p = Some c →
  (∀ q, q ≠ p → q ≠ tmp_of p → files (os w') !! q = files (os w) !! q) →
  input_file_path h w' = Some p.
Proof.
  unfold input_file_path, exists_file. intros Hp Hc Hframe.
  set (docs := path_join (docs_dir h) "AC_RL_input.json") in *.
  set (alt := path_join (app_dir h) "AC_RL_input.json") in *.
  destruct (files (os w) !! docs) as [c0|] eqn:Ed.
  - injection Hp as <-. by rewrite Hc.
  - destruct (files (os w) !! alt) as [c1|] eqn:Ea; [|done].
    injection Hp as <-.
    assert (Hne : docs ≠ alt) by (intros E; rewrite E in Ed; congruence).
    rewrite (Hframe docs Hne (command_file_not_tmp _ _)), Ed. by rewrite Hc.
Qed.

End FileAgain.



(** X9.  A [reset] in the command file fires once.  The tick that reads
    [reset] true from the file calls the host with 68 and 69 and, the
    rewrite succeeding, leaves the file with [reset] false; the next tick
    finds the same file, reads it, and calls the host no more. *)
Theorem reset_from_file_fires_once
    (h : Host) (i1 i2 : intake) (w : World) (p : string) (d : pydict) :
  input_file_path h w = Some p →
  files (os w) !! p = Some (Json (PDict d)) →
  Py.get_is_True "reset" d = true →
  in_read_ok i1 = true → in_rx i1 = [] →
  in_read_ok i2 = true → in_rx i2 = [] →
  callable (o_cmd68 (in_file_outcomes i1)) = true →
  callable (o_cmd69 (in_file_outcomes i1)) = true →
  write_succeeds (o_input_file (in_file_outcomes i1)) = true →
  let w1 := check_input_file h i1 w in
  let w2 := check_input_file h i2 w1 in
  host_calls (trace (os w1)) = host_calls (trace (os w)) ++ [68; 69] ∧
  host_calls (trace (os w2)) = host_calls (trace (os w1)) ∧
  files (os w2) !! p
  = Some (Json (PDict (Py.dict_set "reset" (PBool false) d))).
Proof.
  intros Hp Hf Hreset Hr1 Hx1 Hr2 Hx2 H68 H69 Hw w1 w2.
  pose proof (input_file_path_given h w p Hp) as Hg.
  assert (E1 : w1 = handle_input_data (in_file_outcomes i1) (PDict d) (Some p) w)
    by (by apply check_input_file_reads).
  destruct (handle_reset_files (in_file_outcomes i1) d (Some p) p w Hreset Hg)
    as (F1 & F2 & _).
  rewrite Hw in F1. rewrite <- E1 in F1, F2.
  set (d' := Py.dict_set "reset" (PBool false) d) in *.
  assert (Hp1 : input_file_path h w1 = Some p)
    by (by eapply input_file_path_stable).
  assert (E2 : w2 = handle_input_data (in_file_outcomes i2) (PDict d') (Some p) w1)
    by (by apply check_input_file_reads).
  assert (Hno : Py.get_is_True "reset" d' = false).
  { unfold Py.get_is_True. subst d'. by rewrite dict_set_get_eq. }
  split; [rewrite E1; by apply reset_host_calls|].
  split; [rewrite E2; by apply no_reset_no_host_call|].
  rewrite E2.
  destruct (handle_input_data_files (in_file_outcomes i2) (PDict d') (Some p) w1)
    as (F & _).
  { intros d0 [= <-] Ht. by rewrite Hno in Ht. }
  by rewrite F.
Qed.

Lemma reset_from_file_fires_once_witness :
  let p := "docs/AC_RL_input.json" in
  let w := acMain CreateOk CreateOk
             (initial_world {[ p := Json (PDict [("reset", PBool true)]) ]}) in
  let i := mkIntake true all_well [] in
  let w1 := check_input_file full_host i w in
  let w2 := check_input_file full_host i w1 in
  host_calls (trace (os w1)) = host_calls (trace (os w)) ++ [68; 69] ∧
  host_calls (trace (os w2)) = host_calls (trace (os w1)) ∧
  files (os w2) !! p = Some (Json (PDict [("reset", PBool false)])).
Proof.
  cbv zeta.
  pose proof (reset_from_file_fires_once full_host
                (mkIntake true all_well []) (mkIntake true all_well [])
                (acMain CreateOk CreateOk
                   (initial_world
                      {[ "docs/AC_RL_input.json"
                         := Json (PDict [("reset", PBool true)]) ]}))
                "docs/AC_RL_input.json" [("reset", PBool true)]) as H.
  apply H; vm_compute; reflexivity.
Defined.

(** ** Telemetry switched off *)

Section TelemetryFrames.

Implicit Types (w : World) (d : pydict) (o : hid_outcomes).





End TelemetryFrames.



(** ** The hexadecimal dump of the receiver *)

Module HexdumpFacts.

Import Hexdump.

Section Digits.

Local Open Scope N_scope.

(** A check of the sixteen digits extends to every number below 16. *)
Lemma below_16 (check : N → bool) :
  forallb (fun k => check (N.of_nat k)) (seq 0 16) = true →
  ∀ n, n < 16 → check n = true.
Proof.
  intros H n Hn. rewrite forallb_forall in H.
  specialize (H (N.to_nat n)). rewrite N2Nat.id in H. apply H.
  apply in_seq. lia.
Qed.

Lemma hex_digit_spec n :
  n < 16 →
  unhex_digit (hex_digit n) = Some n ∧
  printable_ascii (hex_digit n) = true ∧
  is_blank (hex_digit n) = false.
Proof.
  intros Hn.
  pose proof (below_16
    (fun n => match unhex_digit (hex_digit n) with
              | Some m => (m =? n) && printable_ascii (hex_digit n)
                          && negb (is_blank (hex_digit n))
              | None => false
              end) eq_refl n Hn) as H.
  cbv beta in H. destruct (unhex_digit (hex_digit n)) as [m|]; [|done].
  apply andb_true_iff in H as [[H1 H2]%andb_true_iff H3].
  apply N.eqb_eq in H1 as ->. by destruct (is_blank _).
Qed.

Lemma hex_digits_length k n : length (hex_digits k n) = k.
Proof.
  revert n. induction k as [|k IH]; intros n; simpl; [done|].
  rewrite length_app, IH. simpl. lia.
Qed.

Lemma hex_digits_chars k n :
  Forall (fun c => printable_ascii c = true ∧ is_blank c = false)
    (hex_digits k n).
Proof.
  revert n. induction k as [|k IH]; intros n; simpl; [constructor|].
  apply Forall_app. split; [apply IH|]. constructor; [|constructor].
  destruct (hex_digit_spec (n mod 16)) as (_ & A & B); [|done].
  apply N.mod_lt. done.
Qed.

Lemma unhex_app a b acc :
  unhex acc (a ++ b)
  = match unhex acc a with Some v => unhex v b | None => None end.
Proof.
  revert acc. induction a as [|c a IH]; intros acc; simpl; [done|].
  destruct (unhex_digit c); [apply IH | done].
Qed.

Lemma unhex_hex_digits k n acc :
  unhex acc (hex_digits k n) = Some (acc * 16 ^ N.of_nat k + n mod 16 ^ N.of_nat k).
Proof.
  revert n acc. induction k as [|k IH]; intros n acc.
  - simpl. f_equal. rewrite N.mod_1_r. lia.
  - cbn [hex_digits]. rewrite unhex_app, IH. cbn [unhex].
    destruct (hex_digit_spec (n mod 16)) as (-> & _); [by apply N.mod_lt|].
    f_equal. rewrite Nat2N.inj_succ, N.pow_succ_r'.
    rewrite (N.Div0.mod_mul_r n 16 (16 ^ N.of_nat k)). lia.
Qed.

Lemma below_hex_len n : n < 16 ^ N.of_nat (hex_len n).
Proof.
  unfold hex_len. rewrite Nat2N.inj_succ, N2Nat.id.
  destruct (N.eq_dec n 0) as [->|Hn]; [done|].
  pose proof (N.log2_spec n ltac:(lia)) as [_ Hlt].
  eapply N.lt_le_trans; [exact Hlt|].
  replace 16 with (2 ^ 4) by done. rewrite <- N.pow_mul_r.
  apply N.pow_le_mono_r; [done|].
  pose proof (N.Div0.mod_le (N.log2 n) 4).
  pose proof (N.div_mod (N.log2 n) 4 ltac:(done)).
  pose proof (N.mod_lt (N.log2 n) 4 ltac:(done)). lia.
Qed.

Lemma hex_len_bound n k : n < 16 ^ N.of_nat (S k) → (hex_len n ≤ S k)%nat.
Proof.
  intros Hn. unfold hex_len.
  destruct (N.eq_dec n 0) as [->|Hz];
    [change (N.log2 0 / 4)%N with 0%N; simpl; lia|].
  pose proof (N.log2_spec n ltac:(lia)) as [Hle _].
  assert (N.log2 n < 4 * N.of_nat (S k)).
  { apply (N.pow_lt_mono_r_iff 2); [done|].
    eapply N.le_lt_trans; [exact Hle|].
    rewrite N.pow_mul_r. exact Hn. }
  assert (N.log2 n / 4 < N.of_nat (S k)) by (apply N.Div0.div_lt_upper_bound; lia).
  lia.
Qed.

Lemma unhex_format_hex w n : unhex 0 (format_hex w n) = Some n.
Proof.
  unfold format_hex. rewrite unhex_hex_digits. f_equal.
  rewrite N.mul_0_l, N.add_0_l. apply N.mod_small.
  eapply N.lt_le_trans; [apply below_hex_len|].
  apply N.pow_le_mono_r; [done|]. lia.
Qed.

Lemma format_hex_length w n :
  length (format_hex w n) = Nat.max w (hex_len n).
Proof. apply hex_digits_length. Qed.

Lemma format_hex_chars w n :
  Forall (fun c => printable_ascii c = true ∧ is_blank c = false)
    (format_hex w n).
Proof. apply hex_digits_chars. Qed.

(** A byte is written with two digits that read back as the byte. *)
Lemma hex2_spec x :
  ∃ a b, hex2 x = [a; b] ∧ is_blank a = false ∧ unhex_byte a b = Some x.
Proof.
  assert (H : hex2_reads_back x = true) by (destruct x; vm_compute; reflexivity).
  unfold hex2_reads_back in H.
  destruct (hex2 x) as [|a [|b [|c r]]]; try done.
  apply andb_true_iff in H as [Ha Hb]. exists a, b.
  destruct (unhex_byte a b) as [y|]; [|done].
  apply Byte.byte_dec_bl in Hb as <-. by destruct (is_blank a).
Qed.

Lemma ascii_part_printable x : printable_ascii (ascii_part x) = true.
Proof. by destruct x. Qed.

Lemma split_blank_digits a r :
  Forall (fun c => is_blank c = false) a →
  split_blank (a ++ " "%char :: r) = (a, " "%char :: r).
Proof.
  induction 1 as [|c a Hc _ IH]; simpl; [done|]. by rewrite Hc, IH.
Qed.

Lemma blanks_spec k : forallb is_blank (repeat " "%char k) = true.
Proof. induction k; simpl; [done|]. done. Qed.

Lemma unhex_column_blanks k : unhex_column (repeat " "%char k) = Some [].
Proof.
  destruct k as [|[|k]]; try done. cbn [repeat unhex_column].
  change (is_blank " ") with true. cbv iota.
  change (" "%char :: " "%char :: repeat " "%char k) with (repeat " "%char (S (S k))).
  by rewrite blanks_spec.
Qed.

Lemma unhex_column_spec chunk k :
  unhex_column (join [" "%char] (map hex2 chunk) ++ repeat " "%char k)
  = Some chunk.
Proof.
  induction chunk as [|x r IH]; [apply unhex_column_blanks|].
  cbn [map join]. destruct (hex2_spec x) as (a & b & -> & Ha & Hx).
  destruct r as [|y r].
  - cbn [map app unhex_column]. rewrite Ha, Hx.
    destruct k as [|k]; [done|]. cbn [repeat].
    change (is_blank " ") with true. cbv iota.
    by rewrite unhex_column_blanks.
  - cbn [map] in *. simpl app. cbn [unhex_column]. rewrite Ha, Hx.
    change (is_blank " ") with true. cbv iota.
    simpl app in IH. by rewrite IH.
Qed.

Lemma join_length chunk :
  (length (join [" "%char] (map hex2 chunk)) ≤ 3 * length chunk)%nat ∧
  (chunk ≠ [] →
   S (length (join [" "%char] (map hex2 chunk))) = 3 * length chunk)%nat.
Proof.
  induction chunk as [|x r [IH1 IH2]]; [done|].
  cbn [map join]. destruct (hex2_spec x) as (a & b & -> & _).
  destruct r as [|y r]; [simpl; split; [lia|done]|].
  cbn [map] in *. rewrite !length_app. cbn [length] in *.
  specialize (IH2 ltac:(done)). split; [lia|]. intros _. lia.
Qed.

Lemma join_chars chunk :
  Forall (fun c => printable_ascii c = true)
    (join [" "%char] (map hex2 chunk)).
Proof.
  induction chunk as [|x r IH]; [constructor|].
  cbn [map join].
  assert (Hx : Forall (fun c => printable_ascii c = true) (hex2 x)).
  { eapply Forall_impl; [apply format_hex_chars|]. by intros c [? _]. }
  destruct r as [|y r]; [done|].
  apply Forall_app. split; [done|]. apply Forall_app. split; [|done].
  by repeat constructor.
Qed.

Lemma ljust_length w s : (length s ≤ w)%nat → length (ljust w s) = w.
Proof. intros H. unfold ljust. rewrite length_app, repeat_length. lia. Qed.

(** A line reads back as its offset, its bytes and its text. *)
Lemma parse_line_line width i chunk :
  (length chunk ≤ width)%nat →
  parse_line width (line width i chunk)
  = Some (mkParsed (N.of_nat i) chunk (map ascii_part chunk)).
Proof.
  intros Hlen. unfold parse_line, line.
  rewrite list_ascii_of_string_of_list_ascii.
  cbn [app]. rewrite split_blank_digits;
    [|eapply Forall_impl; [apply format_hex_chars|]; by intros c [_ ?]].
  pose proof (format_hex_length 8 (N.of_nat i)) as Hl.
  destruct (format_hex 8 (N.of_nat i)) as [|c off] eqn:Eoff;
    [simpl in Hl; lia|]. rewrite <- Eoff. clear Hl.
  change (is_blank " ") with true. cbn [andb].
  pose proof (join_length chunk) as [Hj _].
  assert (Hcol : length (ljust (width * 3) (join [" "%char] (map hex2 chunk)))
                 = (width * 3)%nat) by (apply ljust_length; lia).
  rewrite take_app_length', drop_app_length' by done.
  change (is_blank " ") with true. cbn [andb].
  rewrite unhex_format_hex. unfold ljust. by rewrite unhex_column_spec.
Qed.

End Digits.

Section Chunks.

Local Open Scope nat_scope.

Lemma range_from_length count start step :
  length (range_from count start step) = count.
Proof.
  revert start. induction count as [|c IH]; intros start; simpl; [done|].
  by rewrite IH.
Qed.

Lemma range_from_lookup count start step k :
  k < count → range_from count start step !! k = Some (start + k * step).
Proof.
  revert start k. induction count as [|c IH]; intros start k Hk; [lia|].
  destruct k as [|k]; simpl; [f_equal; lia|].
  rewrite IH by lia. f_equal. lia.
Qed.

Lemma take_plus {A} (l : list A) n m :
  take (n + m) l = take n l ++ take m (drop n l).
Proof.
  revert l. induction n as [|n IH]; intros [|x l]; simpl;
    rewrite ?take_nil; [done..|]. by rewrite IH.
Qed.

(** The chunks of a dump, one after the other, are the data. *)
Lemma chunks_concat {A} (b : list A) w count start :
  concat (map (fun i => take w (drop i b)) (range_from count start w))
  = take (count * w) (drop start b).
Proof.
  revert start. induction count as [|c IH]; intros start; simpl; [done|].
  by rewrite IH, take_plus, drop_drop.
Qed.

Lemma range_step_covers n w : 0 < w → n ≤ (n + w - 1) / w * w.
Proof.
  intros Hw. pose proof (Nat.div_mod (n + w - 1) w ltac:(lia)).
  pose proof (Nat.mod_upper_bound (n + w - 1) w ltac:(lia)). nia.
Qed.

Lemma range_step_count n w : 0 < w → ((n + w - 1) / w = 0 ↔ n = 0).
Proof.
  intros Hw. split.
  - intros H. pose proof (range_step_covers n w Hw). rewrite H in *. lia.
  - intros ->. apply Nat.div_small. lia.
Qed.

Lemma range_step_below n w k :
  0 < w → k < (n + w - 1) / w → k * w < n.
Proof.
  intros Hw Hk.
  assert (S k * w ≤ n + w - 1).
  { etransitivity; [|apply (Nat.Div0.mul_div_le _ w)].
    rewrite (Nat.mul_comm w). apply Nat.mul_le_mono_r. lia. }
  lia.
Qed.

Lemma parse_lines_lines width (chunk : nat → list Byte.byte) (offsets : list nat) :
  (∀ i, length (chunk i) ≤ width) →
  parse_lines width (map (fun i => line width i (chunk i)) offsets)
  = Some (map (fun i => mkParsed (N.of_nat i) (chunk i)
                          (map ascii_part (chunk i))) offsets).
Proof.
  intros Hlen. induction offsets as [|i r IH]; [done|].
  cbn [map parse_lines]. by rewrite parse_line_line, IH.
Qed.

Lemma line_length width i chunk :
  (N.of_nat i < 16 ^ 8)%N → length chunk ≤ width →
  String.length (line width i chunk) = 12 + 3 * width + length chunk.
Proof.
  intros Hi Hlen. unfold line.
  rewrite <- (list_ascii_of_string_of_list_ascii (_ ++ _)) at 1.
  assert (L : ∀ s, String.length s = length (list_ascii_of_string s)).
  { induction s; simpl; congruence. }
  rewrite L, !list_ascii_of_string_of_list_ascii.
  rewrite !length_app, format_hex_length, length_map. cbn [length].
  pose proof (join_length chunk) as [Hj _].
  rewrite ljust_length by lia.
  pose proof (hex_len_bound (N.of_nat i) 7 Hi). lia.
Qed.

Lemma line_chars width i chunk :
  Forall (fun c => printable_ascii c = true)
    (list_ascii_of_string (line width i chunk)).
Proof.
  unfold line. rewrite list_ascii_of_string_of_list_ascii.
  apply Forall_app. split.
  { eapply Forall_impl; [apply format_hex_chars|]. by intros c [? _]. }
  apply Forall_app. split; [by repeat constructor|].
  apply Forall_app. split.
  { unfold ljust. apply Forall_app. split; [apply join_chars|].
    apply Forall_forall. intros c Hc%list_elem_of_In%repeat_spec. by subst. }
  apply Forall_app. split; [by repeat constructor|].
  apply Forall_forall. intros c Hc%list_elem_of_In%in_map_iff.
  destruct Hc as (x & <- & _). apply ascii_part_printable.
Qed.

End Chunks.

End HexdumpFacts.

Section HexdumpProperties.

Import Hexdump HexdumpFacts.

(** X1.  A dump reads back: for a positive width, the lines that [hexdump]
    prints parse as lines of that width; the bytes of their hexadecimal
    columns, one line after the other, are the data; the offset of line
    [k] is [k * width]; every line holds between 1 and [width] bytes, and
    its text column is the rendering of those bytes. *)
Theorem hexdump_reads_back (b : list Byte.byte) (width : Z) :
  0 < width →
  ∃ lines ps,
    hexdump b width = Some lines ∧
    parse_lines (Z.to_nat width) lines = Some ps ∧
    concat (map p_bytes ps) = b ∧
    ∀ k p, ps !! k = Some p →
      p_offset p = N.of_nat (k * Z.to_nat width) ∧
      p_text p = map ascii_part (p_bytes p) ∧
      (1 ≤ length (p_bytes p) ≤ Z.to_nat width)%nat.
Proof.
  intros Hw. unfold hexdump.
  destruct (Z.eqb_spec width 0); [lia|].
  destruct (Z.ltb_spec width 0); [lia|].
  set (w := Z.to_nat width). assert (Hwn : (0 < w)%nat) by lia.
  eexists _, _. split; [reflexivity|]. split.
  { apply (parse_lines_lines w (fun i => take w (drop i b))).
    intros i. rewrite length_take. lia. }
  split.
  - rewrite map_map. cbn [p_bytes]. unfold range_step.
    rewrite (chunks_concat b w _ 0%nat). rewrite drop_0.
    apply take_ge. apply range_step_covers. done.
  - intros k p Hk. rewrite list_lookup_fmap in Hk.
    unfold range_step in Hk.
    destruct (decide (k < (length b + w - 1) / w)%nat) as [Hlt|Hge].
    + rewrite range_from_lookup in Hk by done.
      apply fmap_Some in Hk as (i & [= <-] & ->). cbn [p_offset p_text p_bytes].
      split; [done|]. split; [done|].
      rewrite length_take, length_drop.
      pose proof (range_step_below (length b) w k Hwn Hlt). lia.
    + rewrite lookup_ge_None_2 in Hk; [done|].
      rewrite range_from_length. lia.
Qed.

Lemma hexdump_reads_back_witness :
  ∃ lines ps,
    hexdump [Byte.x68; Byte.x69; Byte.x00] 2 = Some lines ∧
    parse_lines 2 lines = Some ps ∧
    concat (map p_bytes ps) = [Byte.x68; Byte.x69; Byte.x00] ∧
    ∀ k p, ps !! k = Some p →
      p_offset p = N.of_nat (k * 2) ∧
      p_text p = map ascii_part (p_bytes p) ∧
      (1 ≤ length (p_bytes p) ≤ 2)%nat.
Proof. exact (hexdump_reads_back [Byte.x68; Byte.x69; Byte.x00] 2 eq_refl). Defined.

(** X2.  The columns of a dump line up: for a positive width and data of
    less than [16^8] bytes, [hexdump] prints one line for every [width]
    bytes begun, and line [k] is [12 + 3 * width] characters (offset of 8
    digits, hexadecimal column, separators) followed by one character for
    each of its bytes. *)
Theorem hexdump_layout (b : list Byte.byte) (width : Z) :
  0 < width →
  (N.of_nat (length b) ≤ 16 ^ 8)%N →
  let w := Z.to_nat width in
  ∃ lines,
    hexdump b width = Some lines ∧
    length lines = ((length b + w - 1) / w)%nat ∧
    ∀ k l, lines !! k = Some l →
      String.length l = (12 + 3 * w + Nat.min w (length b - k * w))%nat.
Proof.
  intros Hw Hb w. unfold hexdump.
  destruct (Z.eqb_spec width 0); [lia|].
  destruct (Z.ltb_spec width 0); [lia|].
  fold w. assert (Hwn : (0 < w)%nat) by lia.
  eexists. split; [reflexivity|]. split.
  { rewrite length_map. unfold range_step. by rewrite range_from_length. }
  intros k l Hk. rewrite list_lookup_fmap in Hk. unfold range_step in Hk.
  destruct (decide (k < (length b + w - 1) / w)%nat) as [Hlt|Hge].
  - rewrite range_from_lookup in Hk by done.
    apply fmap_Some in Hk as (i & [= <-] & ->).
    pose proof (range_step_below (length b) w k Hwn Hlt).
    rewrite line_length.
    + rewrite length_take, length_drop. lia.
    + lia.
    + rewrite length_take. lia.
  - rewrite lookup_ge_None_2 in Hk; [done|]. rewrite range_from_length. lia.
Qed.

Lemma hexdump_layout_witness :
  ∃ lines,
    hexdump [Byte.x68; Byte.x69; Byte.x00] 2 = Some lines ∧
    length lines = 2%nat ∧
    ∀ k l, lines !! k = Some l →
      String.length l = (12 + 3 * 2 + Nat.min 2 (3 - k * 2))%nat.
Proof.
  exact (hexdump_layout [Byte.x68; Byte.x69; Byte.x00] 2 eq_refl
           ltac:(vm_compute; discriminate)).
Defined.

(** X3.  Whatever the data, every character [hexdump] prints is printable
    ASCII (code 32 to 126): bytes outside that range show as a dot. *)
Theorem hexdump_prints_printable
    (b : list Byte.byte) (width : Z) (lines : list string) :
  hexdump b width = Some lines →
  Forall (fun l => Forall (fun c => printable_ascii c = true)
                     (list_ascii_of_string l)) lines.
Proof.
  unfold hexdump. intros H.
  destruct (width =? 0); [done|].
  destruct (width <? 0); [injection H as <-; constructor|].
  injection H as <-. apply Forall_forall. intros l Hl.
  apply list_elem_of_In, in_map_iff in Hl as (i & <- & _).
  apply line_chars.
Qed.

Lemma hexdump_prints_printable_witness :
  ∃ lines,
    hexdump [Byte.x00; Byte.xff; Byte.x41] 16 = Some lines ∧
    Forall (fun l => Forall (fun c => printable_ascii c = true)
                       (list_ascii_of_string l)) lines.
Proof.
  eexists. split; [vm_compute; reflexivity|].
  apply (hexdump_prints_printable [Byte.x00; Byte.xff; Byte.x41] 16).
  vm_compute. reflexivity.
Defined.

(** X4.  [hexdump] raises exactly when the width is zero (also for empty
    data), and prints nothing exactly when the width is negative or the
    data empty. *)
Theorem hexdump_prints_nothing (b : list Byte.byte) (width : Z) :
  (hexdump b width = None ↔ width = 0) ∧
  (hexdump b width = Some [] ↔ width < 0 ∨ (0 < width ∧ b = [])).
Proof.
  unfold hexdump.
  destruct (Z.eqb_spec width 0) as [->|Hz].
  { split; [done|]. split; [done|]. intros [?|[? _]]; lia. }
  destruct (Z.ltb_spec width 0) as [Hneg|Hpos].
  { split; [split; [done|lia]|]. split; [by left|done]. }
  split; [split; [done|lia]|].
  assert (Hw : (0 < Z.to_nat width)%nat) by lia.
  split.
  - intros [= H]. right. split; [lia|].
    apply (f_equal length) in H. rewrite length_map in H.
    unfold range_step in H. rewrite range_from_length in H. cbn in H.
    apply range_step_count in H; [|done]. by apply length_zero_iff_nil.
  - intros [?|[_ ->]]; [lia|]. cbn [length]. unfold range_step.
    replace ((0 + Z.to_nat width - 1) / Z.to_nat width)%nat with 0%nat; [done|].
    symmetry. by apply range_step_count.
Qed.

End HexdumpProperties.

(** ** The receiver's counts *)

Module CountingFacts.

Import Receiver Aggregation Counting.

Lemma counted_app a b : counted (a ++ b) = counted a + counted b.
Proof.
  induction a as [|p a IH]; simpl; [done|]. destruct p; rewrite ?IH; lia.
Qed.

Lemma counted_body body :
  Forall (fun p => is_summary p = false) body → counted body = 0.
Proof. induction 1 as [|p body Hp _ IH]; simpl; [done|]. by destruct p. Qed.

Lemma reports_body body :
  Forall (fun p => is_summary p = false) body → Forall reports_packets body.
Proof. intros H. eapply Forall_impl; [exact H|]. by intros []. Qed.

Lemma start_settled : settled start.
Proof. by split. Qed.

(** One turn of the loop. *)
Lemma iteration_counts i st :
  settled st →
  ∃ new,
    output (iteration i st).1 = output st ++ new ∧
    Forall reports_packets new ∧
    counted new ≤ pkt_count st + Z.of_nat (length (received [i])) ∧
    ((iteration i st).2 = true →
     settled (iteration i st).1 ∧
     counted new + pkt_count (iteration i st).1
     = pkt_count st + Z.of_nat (length (received [i]))).
Proof.
  intros [Hpos Hiff]. unfold iteration.
  set (st1 := receive (recv i) st).
  assert (H1 : settled st1 ∧ output st1 = output st ∧
               pkt_count st1 = pkt_count st + Z.of_nat (length (received [i]))).
  { subst st1. cbn [received]. destruct (recv i) as [p|]; cbn [receive length].
    - split; [split|split]; cbn [pkt_count last_pkt output]; try lia; try done.
      split; [done|]. intros ?. lia.
    - split; [done|]. split; [done|]. simpl. lia. }
  destruct H1 as ([Hpos1 Hiff1] & Ho1 & Hc1).
  destruct (last_pkt st1) as [[d from]|] eqn:Elast.
  - destruct (one_second <=? now i - last_print st1).
    + destruct (AggregationFacts.summarise_spec d from (now i) st1)
        as (body & Ho & Hb & Hok & Hr & _).
      destruct (summarise d from (now i) st1) as [st2 ok]. cbn [fst snd] in *.
      exists (Summary (pkt_count st1) (size d) from :: body).
      split; [by rewrite Ho, Ho1|]. split; [|split].
      * constructor; [|by apply reports_body]. simpl.
        assert (pkt_count st1 ≠ 0) by (intros E; apply Hiff1 in E; done). lia.
      * cbn [counted]. rewrite (counted_body body Hb). lia.
      * intros ->. symmetry in Hok. destruct (Hr Hok) as (R1 & R2 & R3).
        split; [split; [lia|by rewrite R2, R3]|].
        cbn [counted]. rewrite (counted_body body Hb), R3. lia.
    + exists []. rewrite app_nil_r. cbn [fst snd].
      split; [exact Ho1|]. split; [constructor|].
      split; [cbn [counted]; lia|]. intros _.
      split; [split; [exact Hpos1 | by rewrite Elast]|]. cbn [counted]. lia.
  - exists []. rewrite app_nil_r. cbn [fst snd].
    split; [exact Ho1|]. split; [constructor|].
    split; [cbn [counted]; lia|]. intros _.
    split; [split; [exact Hpos1 | by rewrite Elast]|]. cbn [counted]. lia.
Qed.

Lemma received_app a b : received (a ++ b) = received a ++ received b.
Proof.
  induction a as [|i r IH]; [done|]. cbn [app received].
  rewrite IH. by destruct (recv i).
Qed.

(** Any number of turns. *)
Lemma run_counts turns st :
  settled st →
  ∃ new,
    output (run turns st).1 = output st ++ new ∧
    Forall reports_packets new ∧
    counted new ≤ pkt_count st + Z.of_nat (length (received turns)) ∧
    ((run turns st).2 = true →
     settled (run turns st).1 ∧
     counted new + pkt_count (run turns st).1
     = pkt_count st + Z.of_nat (length (received turns))).
Proof.
  revert st. induction turns as [|i turns IH]; intros st Hst.
  - exists []. rewrite app_nil_r. cbn [run fst snd received length counted].
    split; [done|]. split; [constructor|]. destruct Hst as [? ?].
    split; [lia|]. intros _. split; [done|]. lia.
  - cbn [run].
    destruct (iteration_counts i st Hst) as (n1 & O1 & R1 & L1 & K1).
    assert (Hlen : Z.of_nat (length (received (i :: turns)))
                   = Z.of_nat (length (received [i]))
                     + Z.of_nat (length (received turns))).
    { change (i :: turns) with ([i] ++ turns).
      rewrite received_app, length_app. lia. }
    destruct (iteration i st) as [st1 ok]. cbn [fst snd] in *.
    destruct ok.
    + destruct (K1 eq_refl) as (S1 & C1).
      destruct (IH st1 S1) as (n2 & O2 & R2 & L2 & K2).
      exists (n1 ++ n2). split; [by rewrite O2, O1, app_assoc|].
      split; [by apply Forall_app|]. rewrite counted_app.
      destruct S1 as [? _]. split; [lia|]. intros Hok.
      destruct (K2 Hok) as (S2 & C2). split; [done|]. lia.
    + exists n1. split; [done|]. split; [done|]. split; [lia|]. done.
Qed.

End CountingFacts.

Section ReceiverCounts.

Import Receiver Aggregation Counting.

(** X25.  The receiver counts every datagram once: after any number of
    turns of the loop from its start that no exception ended, the packet
    counts of the summary lines printed so far and the count still
    pending add up to the number of datagrams received; and a packet is
    stored for the next summary exactly when that pending count is not
    zero. *)
Theorem receiver_counts_every_datagram_once (turns : list turn) :
  let r := run turns start in
  r.2 = true →
  counted (output r.1) + pkt_count r.1 = Z.of_nat (length (received turns)) ∧
  0 ≤ pkt_count r.1 ∧
  (last_pkt r.1 = None ↔ pkt_count r.1 = 0).
Proof.
  intros r Hok. subst r.
  destruct (CountingFacts.run_counts turns start CountingFacts.start_settled)
    as (new & O & _ & _ & K).
  destruct (K Hok) as ([S1 S2] & C). simpl in O. rewrite O.
  split; [|done]. simpl in C. lia.
Qed.

Lemma receiver_counts_every_datagram_once_witness :
  let r := run [mkTurn (Some (greeting, sender)) 5000;
                mkTurn (Some (greeting, sender)) 5100;
                mkTurn (Some (greeting, sender)) 5200] start in
  counted (output r.1) = 1 ∧ pkt_count r.1 = 2 ∧
  counted (output r.1) + pkt_count r.1 = 3.
Proof.
  cbv zeta. split; [reflexivity|]. split; [reflexivity|].
  exact (proj1 (receiver_counts_every_datagram_once
                  [mkTurn (Some (greeting, sender)) 5000;
                   mkTurn (Some (greeting, sender)) 5100;
                   mkTurn (Some (greeting, sender)) 5200] eq_refl)).
Defined.

(** X26.  The receiver never prints an empty summary and never counts a
    datagram twice: whatever arrives and whenever, and whether or not an
    exception ends the loop, every summary line printed from the start
    reports at least one packet, and the summary lines together report no
    more packets than datagrams were received. *)
Theorem receiver_never_overcounts (turns : list turn) :
  let out := output (run turns start).1 in
  Forall reports_packets out ∧
  counted out ≤ Z.of_nat (length (received turns)).
Proof.
  destruct (CountingFacts.run_counts turns start CountingFacts.start_settled)
    as (new & O & R & L & _).
  cbv zeta. rewrite O. cbn [output start app] in *. by split.
Qed.

End ReceiverCounts.
